(** * awesome-lint, rule [remark-lint:awesome-list-item]

    A shallow embedding of [src/rules/list-item.js] and the properties of
    the entry grammar it enforces.

    - JavaScript strings are sequences of UTF-16 code units: [jsstring] is
      [list N].  All the characters the rule singles out are in the Basic
      Multilingual Plane, hence one code unit each.
    - Syntax-tree nodes (mdast) are records with the fields the rule reads.
    - [file.message] appends to the message list of the file; the
      validators thread the file explicitly.
    - The npm collaborators [emoji-regex], [case], [is-url-superb] and the
      data file [lib/identifier-allow-list.js] are parameters of the
      development. *)

From Stdlib Require Import List String Ascii Bool Arith NArith ZArith Lia.
Import ListNotations.

Set Warnings "-register-all".

Open Scope bool_scope.
Open Scope list_scope.

(* ================================================================== *)
(** * Strings *)

Definition jsstring := list N.

(** A string literal made of ASCII characters only. *)
Definition lit (s : string) : jsstring :=
  List.map N_of_ascii (list_ascii_of_string s).

(** [a === b] on strings. *)
Fixpoint str_eqb (a b : jsstring) : bool :=
  match a, b with
  | [], [] => true
  | x :: a', y :: b' => N.eqb x y && str_eqb a' b'
  | _, _ => false
  end.

(** [text.startsWith(prefix)] *)
Fixpoint startsWith (prefix text : jsstring) : bool :=
  match prefix, text with
  | [], _ => true
  | p :: prefix', c :: text' => N.eqb p c && startsWith prefix' text'
  | _ :: _, [] => false
  end.

Section CharacterClasses.
Local Open Scope N_scope.

(** The regular expression class [\s], which is also the set of code units
    [trim] and [trimEnd] remove: WhiteSpace and LineTerminator. *)
Definition isWhiteSpace (c : N) : bool :=
  ((9 <=? c) && (c <=? 13))
  || (c =? 32) || (c =? 0xA0) || (c =? 0x1680)
  || ((0x2000 <=? c) && (c <=? 0x200A))
  || (c =? 0x2028) || (c =? 0x2029) || (c =? 0x202F)
  || (c =? 0x205F) || (c =? 0x3000) || (c =? 0xFEFF).

(** What [.] does not match (no [s] flag anywhere in the rule). *)
Definition isLineTerminator (c : N) : bool :=
  (c =? 10) || (c =? 13) || (c =? 0x2028) || (c =? 0x2029).

(** The terminal punctuation marks: full stop, exclamation mark, question
    mark and the horizontal ellipsis U+2026. *)
Definition isPunctuation (c : N) : bool :=
  (c =? 46) || (c =? 33) || (c =? 63) || (c =? 0x2026).

(** A closing double quote: the straight one or the curly U+201D. *)
Definition isClosingQuote (c : N) : bool :=
  (c =? 34) || (c =? 0x201D).

(** The separators of [tokenizeWords]: hyphen, space, semicolon, full
    stop, slash and apostrophe. *)
Definition isWordSeparator (c : N) : bool :=
  (c =? 45) || (c =? 32) || (c =? 59) || (c =? 46) || (c =? 47) || (c =? 39).

(** [\w] *)
Definition isWordChar (c : N) : bool :=
  ((48 <=? c) && (c <=? 57)) || ((65 <=? c) && (c <=? 90))
  || (c =? 95) || ((97 <=? c) && (c <=? 122)).

(** [\d] *)
Definition isDigit (c : N) : bool := (48 <=? c) && (c <=? 57).

(** Slash, en dash U+2013 or em dash U+2014. *)
Definition isSlashOrLongDash (c : N) : bool :=
  (c =? 47) || (c =? 0x2013) || (c =? 0x2014).

(** Straight double quote, curly opening quote U+201C, apostrophe or
    opening parenthesis. *)
Definition isOpeningMark (c : N) : bool :=
  (c =? 34) || (c =? 0x201C) || (c =? 39) || (c =? 40).

Definition backtick : N := 96.
Definition openParen : N := 40.
Definition closeParen : N := 41.
Definition hyphen : N := 45.
End CharacterClasses.

Fixpoint dropWhile {A} (p : A -> bool) (l : list A) : list A :=
  match l with
  | [] => []
  | x :: l' => if p x then dropWhile p l' else l
  end.

Fixpoint takeWhile {A} (p : A -> bool) (l : list A) : list A :=
  match l with
  | [] => []
  | x :: l' => if p x then x :: takeWhile p l' else []
  end.

(** [text.trimEnd()] and [text.trim()] *)
Definition trimEnd (text : jsstring) : jsstring :=
  rev (dropWhile isWhiteSpace (rev text)).

Definition trim (text : jsstring) : jsstring :=
  dropWhile isWhiteSpace (trimEnd text).

(** [text.slice(n)] for a non-negative [n] *)
Definition slice_from (n : nat) (text : jsstring) : jsstring := skipn n text.

(** [text.split] on the separator class: the pieces between separators,
    empty ones included. *)
Fixpoint splitWords (current : jsstring) (text : jsstring) : list jsstring :=
  match text with
  | [] => [rev current]
  | c :: text' =>
      if isWordSeparator c then rev current :: splitWords [] text'
      else splitWords (c :: current) text'
  end.

Definition nonEmpty (s : jsstring) : bool :=
  match s with [] => false | _ :: _ => true end.

(** [function tokenizeWords(text)]: [split] then [filter(Boolean)], which
    drops the empty strings. *)
Definition tokenizeWords (text : jsstring) : list jsstring :=
  filter nonEmpty (splitWords [] text).

(* ================================================================== *)
(** * The regular expressions of the rule

    Each pattern is a boolean function on code units.  Patterns without a
    leading anchor are tried by [test] at every start position, so a pattern
    of the shape [.*X$] holds exactly when the text ends in [X]. *)

(** The first code unit of [t] satisfies [p].  On a reversed text this
    looks at its last code unit. *)
Definition head_is (p : N -> bool) (t : jsstring) : bool :=
  match t with
  | c :: _ => p c
  | [] => false
  end.

(** [/^\s*$/]: nothing but white space. *)
Definition re_blank (text : jsstring) : bool := forallb isWhiteSpace text.

(** [/^[\s\u00A0]-[\s\u00A0]/]: a hyphen between two white-space code
    units, the no-break space among them. *)
Definition re_dash_with_odd_space (text : jsstring) : bool :=
  match text with
  | a :: b :: c :: _ =>
      (isWhiteSpace a || N.eqb a 0xA0) && N.eqb b hyphen
      && (isWhiteSpace c || N.eqb c 0xA0)
  | _ => false
  end.

(** [/^\s*[/\u{02013}\u{02014}]/u]: after the leading white space comes a
    slash, an en dash or an em dash. *)
Definition re_long_dash (text : jsstring) : bool :=
  head_is isSlashOrLongDash (dropWhile isWhiteSpace text).

Definition notCloseParen (c : N) : bool := negb (N.eqb c closeParen).

(** The common part of the two parenthetical patterns, [\([^)]+\)]
    followed by [rest]: an opening parenthesis, at least one code unit that
    is not a closing parenthesis, then the first closing parenthesis, after
    which [rest] must hold. *)
Definition parenthetical (rest : jsstring -> bool) (text : jsstring) : bool :=
  match text with
  | c :: body =>
      N.eqb c openParen
      && nonEmpty (takeWhile notCloseParen body)
      && match dropWhile notCloseParen body with
         | _ :: after => rest after
         | [] => false
         end
  | [] => false
  end.

(** [/^\s\([^)]+\)\s*$/] *)
Definition re_spaced_parenthetical (text : jsstring) : bool :=
  match text with
  | c :: text' => isWhiteSpace c && parenthetical re_blank text'
  | [] => false
  end.

(** [/^\([^)]+\)$/] *)
Definition re_parenthetical (text : jsstring) : bool :=
  parenthetical (fun after => negb (nonEmpty after)) text.

(** [/\W+/g] replaced by the empty string: only word characters stay. *)
Definition removeNonWord (text : jsstring) : jsstring := filter isWordChar text.

(** [/\d/] *)
Definition re_has_digit (text : jsstring) : bool := existsb isDigit text.

(** The pattern of [validateListItemPrefixCasing] for a leading quote,
    apostrophe or opening parenthesis. *)
Definition re_opening_mark (text : jsstring) : bool := head_is isOpeningMark text.

(** The pattern for a terminal punctuation mark anywhere in the text. *)
Definition re_has_punctuation (text : jsstring) : bool :=
  existsb isPunctuation text.

Definition noLineTerminator (text : jsstring) : bool :=
  forallb (fun c => negb (isLineTerminator c)) text.

(** The fully backticked pattern of [validateListItemSuffix]: a backtick,
    then [.*] and a run of punctuation, a backtick, and punctuation up to
    the end.  The code unit before the final punctuation run is a backtick,
    which is no punctuation mark, so that run is the longest one; what
    stands between the two backticks is matched by [.*] and holds no line
    terminator. *)
Definition re_fully_backticked (text : jsstring) : bool :=
  match text with
  | c :: text' =>
      N.eqb c backtick
      && match dropWhile isPunctuation (rev text') with
         | c' :: middle => N.eqb c' backtick && noLineTerminator middle
         | [] => false
         end
  | [] => false
  end.

(** What follows the first backtick of the text, if there is one. *)
Fixpoint afterBacktick (text : jsstring) : option jsstring :=
  match text with
  | [] => None
  | c :: text' => if N.eqb c backtick then Some text' else afterBacktick text'
  end.

(** The pattern for several backticked spans: a backtick, [.+], a backtick,
    [.+], a backtick, [.+] up to the end.  Each [.+] takes at least one code
    unit and no line terminator; the earliest backticks that leave room are
    the ones to try. *)
Definition re_several_backticks (text : jsstring) : bool :=
  match text with
  | c :: _ :: text1 =>
      N.eqb c backtick
      && noLineTerminator (tl text)
      && match afterBacktick text1 with
         | Some (_ :: text2) =>
             match afterBacktick text2 with
             | Some (_ :: _) => true
             | _ => false
             end
         | _ => false
         end
  | _ => false
  end.

(** The pattern with the lookbehind: the text ends in a closing double
    quote followed by one or more punctuation marks.  Read on the reversed
    text: a non-empty run of punctuation, then the quote. *)
Definition re_quote_then_punctuation (text : jsstring) : bool :=
  head_is isPunctuation (rev text)
  && head_is isClosingQuote (dropWhile isPunctuation (rev text)).

(** The pattern that rejects: punctuation mark, closing double quote, one
    or more punctuation marks, end of text. *)
Definition re_punctuation_quote_punctuation (text : jsstring) : bool :=
  head_is isPunctuation (rev text)
  && match dropWhile isPunctuation (rev text) with
     | q :: before => isClosingQuote q && head_is isPunctuation before
     | [] => false
     end.

(** The pattern that accepts: the text ends in a punctuation mark, or in a
    punctuation mark and a closing double quote. *)
Definition re_punctuation_maybe_quote (text : jsstring) : bool :=
  match rev text with
  | c :: before =>
      isPunctuation c || (isClosingQuote c && head_is isPunctuation before)
  | [] => false
  end.

(** [/\)\s*$/]: a closing parenthesis followed by white space only. *)
Definition re_ends_with_paren (text : jsstring) : bool :=
  head_is (N.eqb closeParen) (dropWhile isWhiteSpace (rev text)).

(** What is left of [text] after the first HTML comment closer, provided no
    line terminator comes before it: the lazy [.*?] of the pattern for
    HTML comments stops at the first closer and does not cross a line. *)
Fixpoint afterCommentClose (text : jsstring) : option jsstring :=
  match text with
  | [] => None
  | c :: text' =>
      if startsWith (lit "-->") text then Some (skipn 3 text)
      else if isLineTerminator c then None
      else afterCommentClose text'
  end.

(** Length of the HTML comment that starts at the head of [text], 0 when
    there is none. *)
Definition commentLength (text : jsstring) : nat :=
  if startsWith (lit "<!--") text then
    match afterCommentClose (skipn 4 text) with
    | Some rest => List.length text - List.length rest
    | None => 0
    end
  else 0.

(** Removal of every match of a pattern, for a pattern given by the length of its
    match at the head of a text (0: no match there).  The scan is the one of
    a global regular expression: leftmost match, then on from its end.
    [skip] counts the code units of the current match still to drop. *)
Fixpoint removeMatches (matchLength : jsstring -> nat) (skip : nat)
    (text : jsstring) : jsstring :=
  match text with
  | [] => []
  | c :: text' =>
      match skip with
      | S k => removeMatches matchLength k text'
      | O =>
          match matchLength text with
          | S k => removeMatches matchLength k text'
          | O => c :: removeMatches matchLength 0 text'
          end
      end
  end.

(** The matches a loop of [regex.exec(text)] on a global pattern yields in
    turn, as pairs of index and length.  A match is clipped to the text. *)
Fixpoint allMatches (matchLength : jsstring -> nat) (skip index : nat)
    (text : jsstring) : list (nat * nat) :=
  match text with
  | [] => []
  | _ :: text' =>
      match skip with
      | S k => allMatches matchLength k (S index) text'
      | O =>
          match Nat.min (matchLength text) (List.length text) with
          | S k => (index, S k) :: allMatches matchLength k (S index) text'
          | O => allMatches matchLength 0 (S index) text'
          end
      end
  end.

(** [replaceAll] of the HTML comments by the empty string. *)
Definition removeHtmlComments (text : jsstring) : jsstring :=
  removeMatches commentLength 0 text.

(* ================================================================== *)
(** * Syntax trees *)

(** An mdast node with the fields the rule reads.  [value] is present on
    literals (text, inlineCode, html), [alt] on images, [depth] on headings,
    [url] on links (the empty string elsewhere, where it is never read); a
    node without a [children] field has the empty list. *)
Inductive node : Type :=
  Node {
    type : string;
    value : option jsstring;
    alt : option jsstring;
    url : jsstring;
    depth : option N;
    children : list node
  }.

Definition hasType (name : string) (n : node) : bool := String.eqb (type n) name.

(** [set.has(node.type)] for a set of type names. *)
Definition has (set : list string) (name : string) : bool :=
  existsb (String.eqb name) set.

Definition mkLiteral (ty : string) (v : jsstring) : node :=
  Node ty (Some v) None [] None [].
Definition mkParent (ty : string) (cs : list node) : node :=
  Node ty None None [] None cs.
Definition mkText (v : jsstring) : node := mkLiteral "text" v.
Definition mkInlineCode (v : jsstring) : node := mkLiteral "inlineCode" v.
Definition mkLink (u : jsstring) (cs : list node) : node :=
  Node "link" None None u None cs.
Definition mkLinkReference (cs : list node) : node := mkParent "linkReference" cs.
Definition mkHeading (d : N) (cs : list node) : node :=
  Node "heading" None None [] (Some d) cs.
Definition mkParagraph (cs : list node) : node := mkParent "paragraph" cs.
Definition mkListItem (cs : list node) : node := mkParent "listItem" cs.
Definition mkList (items : list node) : node := mkParent "list" items.
Definition mkRoot (cs : list node) : node := mkParent "root" cs.

(** [toString] of mdast-util-to-string: the [value] of a literal, else the
    non-empty [alt] of an image, else the texts of the children, joined. *)
Fixpoint toString (n : node) : jsstring :=
  match n with
  | Node _ (Some v) _ _ _ _ => v
  | Node _ None (Some (c :: a)) _ _ _ => c :: a
  | Node _ None _ _ _ cs => List.concat (List.map toString cs)
  end.

(** [toString({ type: "root", children: nodes })] *)
Definition toStringAll (nodes : list node) : jsstring :=
  List.concat (List.map toString nodes).

(** The value of a literal node; text nodes always carry one. *)
Definition valueOf (n : node) : jsstring :=
  match value n with
  | Some v => v
  | None => []
  end.

(** Nodes are objects, compared by identity.  Inside one tree a node is
    identified by its position: the path of child indices from the root. *)
Definition path := list nat.

(** [f] applied to the elements of a list and their indices, from [index]
    on, the results joined. *)
Definition indexed {A B} (f : nat -> A -> list B) : nat -> list A -> list B :=
  fix among (index : nat) (l : list A) : list B :=
    match l with
    | [] => []
    | x :: l' => f index x ++ among (S index) l'
    end.

(** The walk of [visit] of unist-util-visit: a node, then its children from
    left to right, each with all that is below it.  Every node comes with
    its position. *)
Fixpoint visitOrder (tree : node) : list (path * node) :=
  ([], tree)
  :: match tree with
     | Node _ _ _ _ _ cs =>
         indexed
           (fun index c =>
              List.map (fun pn => (index :: fst pn, snd pn)) (visitOrder c))
           0 cs
     end.

(** [find(tree, condition)] of unist-util-find: [visit] stops at the first
    node on which the condition holds; here its position. *)
Definition find (condition : node -> bool) (tree : node) : option path :=
  option_map fst
    (List.find (fun pn => condition (snd pn)) (visitOrder tree)).

(** [parent.children.indexOf(node)]: the index of a node among the children
    of the root, for a node given by its position.  Only a direct child has
    one; for any other node [indexOf] answers -1. *)
Definition indexOf (p : path) : option nat :=
  match p with
  | [i] => Some i
  | _ => None
  end.

(** [findAllAfter(parent, index, test)] of unist-util-find-all-after, once
    the index is known: the children of [parent] after position [index] that
    pass the test, each with its own index. *)
Definition findAllAfter (parent : node) (index : nat) (test : node -> bool)
    : list (nat * node) :=
  filter (fun ic => test (snd ic))
    (skipn (S index) (combine (seq 0 (List.length (children parent)))
                              (children parent))).

(** [function findAllLists(ast)]: the visitor collects every node of type
    list that [visit] reaches, [ast] itself included. *)
Definition findAllLists (ast : node) : list node :=
  List.map snd (filter (fun pn => hasType "list" (snd pn)) (visitOrder ast)).

(** [function extractSublists(lists)] *)
Definition extractSublists (lists : list node) : list node :=
  fold_left (fun allLists l => allLists ++ findAllLists l) lists [].

(** The predicate handed to [find]: a heading of depth 2 whose text, HTML
    comments removed and trimmed, is Contents. *)
Definition isContentsHeading (n : node) : bool :=
  hasType "heading" n
  && match depth n with Some d => N.eqb d 2 | None => false end
  && str_eqb (trim (removeHtmlComments (toString n))) (lit "Contents").

(* ================================================================== *)
(** * The file and its messages *)

(** One call of [file.message(reason, node)].  The node may be [undefined]
    (a list item without children). *)
Record message : Type := Message { reason : string; place : option node }.

Definition vfile := list message.

Definition file_message (r : string) (n : option node) (file : vfile) : vfile :=
  file ++ [Message r n].

(* ================================================================== *)
(** * The rule *)

(** Valid casings for first text word in list item descriptions *)
Definition listItemPrefixCaseAllowList : list string :=
  ["camel"; "capital"; "constant"; "pascal"; "upper"]%string.

(** Valid node types in list item link *)
Definition listItemLinkNodeAllowList : list string :=
  ["emphasis"; "inlineCode"; "text"]%string.

(** Valid node types in list item descriptions *)
Definition listItemDescriptionNodeAllowList : list string :=
  ["emphasis"; "footnoteReference"; "html"; "image"; "inlineCode"; "link";
   "linkReference"; "strong"; "text"]%string.

(** Valid node types in list item description suffix *)
Definition listItemDescriptionSuffixNodeAllowList : list string :=
  ["emphasis"; "html"; "image"; "link"; "strong"; "text"]%string.

(** [dash.length] in [validateListItemDescription]: [dash] is a node, not a
    string, and no mdast node has a [length] property, so the lookup yields
    [undefined]. *)
Definition node_length (n : node) : option Z := None.

(** [x > y] for a possibly undefined [x]: a comparison with [undefined] is
    false. *)
Definition js_gt (x : option Z) (y : Z) : bool :=
  match x with
  | Some v => Z.ltb y v
  | None => false
  end.

(** A badge, for the backward scan of [validateListItemDescription]: an
    inlineCode node, or a text node with white space only. *)
Definition isBadge (n : node) : bool :=
  hasType "inlineCode" n || (hasType "text" n && re_blank (toString n)).

(** The loop on [lastNonBadgeIndex]: [examined] is the index plus one; the
    result is the index at which the loop stops, -1 when it ran off the
    front. *)
Fixpoint skipBadges (description : list node) (examined : nat) : Z :=
  match examined with
  | O => (-1)%Z
  | S index =>
      match nth_error description index with
      | Some n => if isBadge n then skipBadges description index
                  else Z.of_nat index
      | None => Z.of_nat index
      end
  end.

(** The constants [validateListItemDescription] derives from the badge
    scan, under the names they have there. *)
Definition lastNonBadgeIndex (description : list node) : Z :=
  skipBadges description (List.length description).

(** [description[lastNonBadgeIndex]], read only when the index is not
    negative; [dash] is [description[0]]. *)
Definition suffixWithoutBadge (description : list node) (dash : node) : node :=
  nth (Z.to_nat (lastNonBadgeIndex description)) description dash.

Definition hasBadges (description : list node) : bool :=
  (lastNonBadgeIndex description <? Z.of_nat (List.length description) - 1)%Z.

(** [description.slice(0, lastNonBadgeIndex + 1)] *)
Definition beforeBadges (description : list node) : list node :=
  firstn (Z.to_nat (lastNonBadgeIndex description) + 1) description.

(** The final value of the variable [lastSuffixText]: the text before the
    badges, trimmed on the right when there are badges. *)
Definition lastSuffixText (description : list node) : jsstring :=
  let text := toStringAll (beforeBadges description) in
  if hasBadges description then trimEnd text else text.

(** The condition of the loop of [validateList] that discards prefix
    elements until it finds something link-like. *)
Definition skipCondition (link : node) (description : list node) : bool :=
  negb (hasType "linkReference" link) && negb (hasType "link" link)
  && (1 <? List.length description).

(** The loop itself: one test of the condition and one run of the body,
    [link = description[0]] and [description = description.slice(1)], per
    recursive call. *)
Fixpoint skipFiller (link : node) (description : list node)
    : node * list node :=
  match description with
  | next :: rest =>
      if skipCondition link description then skipFiller next rest
      else (link, description)
  | [] => (link, description)
  end.

(** The collaborators the rule imports and this development leaves
    open. *)
Class Collaborators : Type := {
  (** [emojiRegex()] of emoji-regex, as the length of the emoji at the head
      of a text, 0 when the text does not start with one. *)
  emojiLength : jsstring -> nat;
  (** [caseOf] of the case package: the name of the casing of a word, or
      [undefined]. *)
  caseOf : jsstring -> option string;
  (** [isUrl] of is-url-superb. *)
  isUrl : jsstring -> bool;
  (** The words of [lib/identifier-allow-list.js]. *)
  identifierAllowList : list jsstring
}.

Section Rule.

Context {collaborators : Collaborators}.

(** [function textEndsWithEmoji(text)]: the loop keeps the last match;
    the text ends with an emoji when that match reaches its end. *)
Definition textEndsWithEmoji (text : jsstring) : bool :=
  match rev (allMatches emojiLength 0 0 text) with
  | (emojiIndex, emojiLen) :: _ => List.length text <=? emojiLen + emojiIndex
  | [] => false
  end.

(** [textEndsWithEmoji(tokens.at(-1))].  Without tokens the argument is
    [undefined]; [exec] turns it into a word of ASCII letters, in which
    the emoji pattern finds nothing, and the answer is false. *)
Definition lastTokenEndsWithEmoji (tokens : list jsstring) : bool :=
  match rev tokens with
  | token :: _ => textEndsWithEmoji token
  | [] => false
  end.

(** [function validateListItemSpecialCases(description, descriptionText)] *)
Definition validateListItemSpecialCases (description : list node)
    (descriptionText : jsstring) : bool :=
  if startsWith (lit " - ") descriptionText then false
  else
    let text := trim (removeMatches emojiLength 0 descriptionText) in
    if negb (nonEmpty text) then true
    else if re_spaced_parenthetical descriptionText then true
    else if re_parenthetical text then true
    else false.

(** [function validateListItemPrefixCasing(prefix, file)] *)
Definition validateListItemPrefixCasing (prefix : node) (file : vfile)
    : bool * vfile :=
  let strippedPrefix := slice_from 3 (valueOf prefix) in
  match tokenizeWords strippedPrefix with
  | [] =>
      (false,
       file_message "List item description must start with a non-empty string"
         (Some prefix) file)
  | firstWord :: _ =>
      if negb (match caseOf (removeNonWord firstWord) with
               | Some casing => has listItemPrefixCaseAllowList casing
               | None => false
               end)
         && negb (re_has_digit firstWord)
         && negb (re_opening_mark firstWord)
         && negb (existsb (str_eqb firstWord) identifierAllowList)
      then
        (false,
         file_message "List item description must start with valid casing"
           (Some prefix) file)
      else (true, file)
  end.

(** [function validateListItemPrefix(descriptionText, prefixText)] *)
Definition validateListItemPrefix (descriptionText prefixText : jsstring)
    : bool :=
  if startsWith (lit " - ") prefixText then true
  else if textEndsWithEmoji prefixText && str_eqb descriptionText prefixText
  then true
  else false.

(** [function validateListItemSuffix(descriptionText, suffixText)] *)
Definition validateListItemSuffix (descriptionText suffixText : jsstring)
    : bool :=
  if re_fully_backticked descriptionText then
    if re_several_backticks descriptionText then true else false
  else if re_quote_then_punctuation descriptionText then
    if re_punctuation_quote_punctuation descriptionText then false else true
  else if re_punctuation_maybe_quote descriptionText then true
  else if negb (re_has_punctuation descriptionText)
          && (let tokens := tokenizeWords descriptionText in
              (2 <? List.length tokens)
              || negb (lastTokenEndsWithEmoji tokens))
  then false
  else if re_ends_with_paren suffixText then true
  else if textEndsWithEmoji suffixText then true
  else false.

(** [function validateListItemLinkChildren(link, file)] *)
Definition validateListItemLinkChildren (link : node) (file : vfile)
    : bool * vfile :=
  match List.find (fun n => negb (has listItemLinkNodeAllowList (type n)))
          (children link) with
  | Some n => (false, file_message "Invalid list item link" (Some n) file)
  | None => (true, file)
  end.

(** [function validateListItemLink(link, file)] *)
Definition validateListItemLink (link : node) (file : vfile) : bool * vfile :=
  if hasType "linkReference" link then (true, file)
  else if negb (hasType "link" link) then
    (false, file_message "Invalid list item link" (Some link) file)
  else if negb (isUrl (url link)) then
    (false, file_message "Invalid list item link URL" (Some link) file)
  else if negb (nonEmpty (toString link)) then
    (false, file_message "Invalid list item link text" (Some link) file)
  else (true, file).

(** [function validateListItemDescription(description, file)].  The result
    is [None] for the bare [return] of the empty description.  The test
    [dash === suffixWithoutBadge] compares two elements of one array of
    distinct nodes and holds exactly when their indices agree. *)
Definition validateListItemDescription (description : list node)
    (file : vfile) : option bool * vfile :=
  match description with
  | [] => (None, file)
  | dash :: _ =>
    let descriptionText := toStringAll description in
    if validateListItemSpecialCases description descriptionText then
      (Some true, file)
    else
    let dashText := toString dash in
    if negb (hasType "text" dash)
       || negb (validateListItemPrefix descriptionText dashText)
    then
      if re_dash_with_odd_space dashText then
        (Some false,
         file_message
           "List item link and description separated by invalid whitespace"
           (Some dash) file)
      else if re_long_dash dashText then
        (Some false,
         file_message
           "List item link and description separated by invalid en-dash or em-dash"
           (Some dash) file)
      else
        (Some false,
         file_message
           "List item link and description must be separated with a dash"
           (Some dash) file)
    else
    if (lastNonBadgeIndex description <? 0)%Z then
      (Some false,
       file_message "List item description must not consist of only badges"
         (Some dash) file)
    else
    let suffixWithoutBadge := suffixWithoutBadge description dash in
    let suffixWithoutBadgeText := toString suffixWithoutBadge in
    if negb (has listItemDescriptionSuffixNodeAllowList (type suffixWithoutBadge))
    then
      (Some false,
       file_message "List item description must end with proper punctuation"
         (Some suffixWithoutBadge) file)
    else
    if hasType "text" suffixWithoutBadge
       && negb (validateListItemSuffix (lastSuffixText description)
                  suffixWithoutBadgeText)
    then
      (Some false,
       file_message "List item description must end with proper punctuation"
         (Some suffixWithoutBadge) file)
    else
    if (lastNonBadgeIndex description =? 0)%Z then
      let '(ok, file') := validateListItemPrefixCasing dash file in
      if negb ok then (Some false, file') else (Some true, file')
    else
      match List.find
              (fun n => negb (has listItemDescriptionNodeAllowList (type n)))
              (beforeBadges description) with
      | Some n =>
          (Some false,
           file_message "List item description contains invalid markdown"
             (Some n) file)
      | None =>
          if js_gt (node_length dash) 3 then
            let '(ok, file') := validateListItemPrefixCasing dash file in
            if negb ok then (Some false, file') else (Some true, file')
          else (Some true, file)
      end
  end.

(** The body of the loop of [validateList], for one list item; each
    [continue] ends it. *)
Definition validateListItem (listItem : node) (file : vfile) : vfile :=
  match children listItem with
  | [] => file_message "Invalid list item" None file
  | paragraph :: _ =>
      if negb (hasType "paragraph" paragraph)
         || (List.length (children paragraph) =? 0)
      then file_message "Invalid list item" (Some paragraph) file
      else
        match children paragraph with
        | [] => file
        | first :: others =>
            if hasType "text" first then file
            else
              let '(link, description) := skipFiller first others in
              let '(linkOk, file1) := validateListItemLink link file in
              if negb linkOk then file1
              else
                let '(childrenOk, file2) :=
                  validateListItemLinkChildren link file1 in
                if negb childrenOk then file2
                else snd (validateListItemDescription description file2)
        end
  end.

(** [function validateList(list, file)] *)
Definition validateList (list : node) (file : vfile) : vfile :=
  fold_left (fun f listItem => validateListItem listItem f)
    (children list) file.

(** The loop of the rule over the lists it selected. *)
Definition validateLists (lists : list node) (file : vfile) : vfile :=
  fold_left (fun f l => validateList l f) lists file.

(** The rule itself.  [None] stands for the error [findAllAfter] throws
    when the Contents heading is not a child of the root. *)
Definition listItemRule (ast : node) (file : vfile) : option vfile :=
  let lists := findAllLists ast in
  match find isContentsHeading ast with
  | Some toc =>
      match indexOf toc with
      | None => None
      | Some tocIndex =>
          match findAllAfter ast tocIndex (hasType "heading") with
          | [] => Some file
          | (postContentsHeading, _) :: _ =>
              Some (validateLists
                      (extractSublists
                         (List.map snd
                            (findAllAfter ast postContentsHeading
                               (hasType "list"))))
                      file)
          end
      end
  | None => Some (validateLists lists file)
  end.

End Rule.

(* ================================================================== *)
(** * Sample collaborators and sample trees

    Small stand-ins for the npm collaborators, to run the rule on concrete
    entries.  The theorems below hold for all collaborators. *)

Module Sample.

Local Open Scope N_scope.

(** The check mark U+2705, and any surrogate pair whose high half lies in
    U+D83C to U+D83E (where most pictographs live). *)
Definition emoji (text : jsstring) : nat :=
  match text with
  | c :: rest =>
      if c =? 0x2705 then 1%nat
      else if (0xD83C <=? c) && (c <=? 0xD83E) then
        match rest with
        | d :: _ => if (0xDC00 <=? d) && (d <=? 0xDFFF) then 2%nat else 0%nat
        | [] => 0%nat
        end
      else 0%nat
  | [] => 0%nat
  end.

Definition isUpper (c : N) : bool := (65 <=? c) && (c <=? 90).
Definition isLower (c : N) : bool := (97 <=? c) && (c <=? 122).

(** Three casings are told apart: lower, upper and capital. *)
Definition casing (word : jsstring) : option string :=
  match word with
  | [] => None
  | c :: rest =>
      if forallb isLower word then Some "lower"%string
      else if forallb isUpper word then Some "upper"%string
      else if isUpper c && forallb isLower rest then Some "capital"%string
      else None
  end.

Definition absoluteUrl (text : jsstring) : bool :=
  (startsWith (lit "https://") text && (8 <? List.length text)%nat)
  || (startsWith (lit "http://") text && (7 <? List.length text)%nat).

Definition collaborators : Collaborators :=
  {| emojiLength := emoji;
     caseOf := casing;
     isUrl := absoluteUrl;
     identifierAllowList := [lit "macOS"; lit "iOS"] |}.

(** [[Foo](https://example.com)] *)
Definition fooLink : node := mkLink (lit "https://example.com") [mkText (lit "Foo")].

(** A list item made of one paragraph. *)
Definition entry (inlines : list node) : node :=
  mkListItem [mkParagraph inlines].

Definition checkMark : N := 0x2705.
Definition straightQuote : N := 34.

(** The description of [[Foo](https://example.com) - Done] followed by
    a check mark. *)
Definition doneDescription : list node :=
  [mkText (lit " - Done " ++ [checkMark])].

(** [ - a tool by [Foo](https://example.com).]: text, link, text. *)
Definition mixedDash : node := mkText (lit " - a tool by ").
Definition mixedDescription : list node :=
  [mixedDash; fooLink; mkText (lit ".")].

(** [ - Status: Beta. ] with a space at its end, and the badge after it. *)
Definition statusText : node := mkText (lit " - Status: Beta. ").
Definition betaBadge : node := mkInlineCode (lit "Beta").

(** A linkReference around strong text. *)
Definition strongChild : node := mkParent "strong" [mkText (lit "Foo")].
Definition strongReference : node := mkLinkReference [strongChild].

Definition contentsHeading : node := mkHeading 2 [mkText (lit "Contents")].

(** A list with one item that has no paragraph. *)
Definition brokenList : node := mkList [mkListItem []].

(** Two Contents headings, then a malformed list. *)
Definition twoContents : node :=
  mkRoot [contentsHeading; contentsHeading; brokenList].

(** The Contents heading inside a block quote, then a malformed list. *)
Definition quotedContents : node :=
  mkRoot [mkParent "blockquote" [contentsHeading]; brokenList].

(** A Contents heading with nothing but a malformed list behind it. *)
Definition contentsThenList : node := mkRoot [contentsHeading; brokenList].

(** A description without the dash separator. *)
Definition undashedText : node := mkText (lit "A short tool.").

(** An image, as filler in front of a link. *)
Definition logo : node :=
  Node "image" None (Some (lit "logo")) (lit "logo.png") None [].

(** [ - A short tool.] after the link. *)
Definition shortToolText : node := mkText (lit " - A short tool.").

(** The Contents heading with the comment that keeps it out of a generated
    table of contents. *)
Definition commentedContents : node :=
  mkHeading 2 [mkText (lit "Contents <!-- omit in toc -->")].

Definition toolsHeading : node := mkHeading 2 [mkText (lit "Tools")].

(** A malformed list before the Contents heading, one between it and the
    next heading, and one after that heading. *)
Definition scopedDocument : node :=
  mkRoot [brokenList; contentsHeading; brokenList; toolsHeading; brokenList].

(** A document without a Contents heading: a heading and a list in a
    list. *)
Definition plainDocument : node :=
  mkRoot [toolsHeading; mkList [mkListItem [mkParagraph []; brokenList]]].

End Sample.

(* ================================================================== *)
(** * Notions used in the statements *)

(** One turn of the filler-skipping loop of [validateList], as a transition
    on the pair of its two variables: [None] when the condition fails. *)
Definition skipStep (state : node * list node) : option (node * list node) :=
  let '(link, description) := state in
  if skipCondition link description then
    match description with
    | next :: rest => Some (next, rest)
    | [] => None
    end
  else None.

(** [turns] turns of the loop in a row. *)
Fixpoint skipSteps (turns : nat) (state : node * list node)
    : option (node * list node) :=
  match turns with
  | O => Some state
  | S turns' =>
      match skipStep state with
      | Some state' => skipSteps turns' state'
      | None => None
      end
  end.

(** The call of [validateListItemSuffix] inside
    [validateListItemDescription], as a function of the description. *)
Definition punctuationCheck {collaborators : Collaborators}
    (description : list node) : bool :=
  match description with
  | [] => true
  | dash :: _ =>
      validateListItemSuffix (lastSuffixText description)
        (toString (suffixWithoutBadge description dash))
  end.

(** The last code unit of a text satisfies [p]. *)
Definition lastIs (p : N -> bool) (text : jsstring) : bool :=
  head_is p (rev text).

(** The shape all validators share: whether the check passes and what it
    reports do not depend on the file, and a message is reported exactly
    when the check fails. *)
Definition reportsOnFailure (check : vfile -> bool * vfile) : Prop :=
  (forall file, check file = (true, file))
  \/ (exists m, forall file, check file = (false, file ++ [m])).

(** A node that may stand inside the link of an entry. *)
Definition linkChildAllowed (n : node) : bool :=
  has listItemLinkNodeAllowList (type n).

(** Letters, the space and the hyphen: code units no emoji starts with. *)
Definition isPlain (c : N) : bool :=
  ((65 <=? c) && (c <=? 90))%N || ((97 <=? c) && (c <=? 122))%N
  || N.eqb c 32 || N.eqb c 45.

Definition nonEmptyList {A} (l : list A) : bool :=
  match l with [] => false | _ :: _ => true end.

(** The three messages of the dash-separator check. *)
Definition separatorReasons : list string :=
  ["List item link and description separated by invalid whitespace";
   "List item link and description separated by invalid en-dash or em-dash";
   "List item link and description must be separated with a dash"]%string.

Definition onlyBadgesReason : string :=
  "List item description must not consist of only badges".

Definition casingReason : string :=
  "List item description must start with valid casing".

(** The walk below the children of a node, the first of which has index
    [index]. *)
Definition walkChildren (index : nat) (cs : list node) : list (path * node) :=
  indexed
    (fun index c =>
       List.map (fun pn => (index :: fst pn, snd pn)) (visitOrder c))
    index cs.

Fixpoint path_eqb (p q : path) : bool :=
  match p, q with
  | [], [] => true
  | i :: p', j :: q' => Nat.eqb i j && path_eqb p' q'
  | _, _ => false
  end.

(** What [visit] reaches after the node at position [p]. *)
Fixpoint visitedAfter (p : path) (walk : list (path * node)) : list node :=
  match walk with
  | [] => []
  | (q, _) :: walk' =>
      if path_eqb p q then List.map snd walk' else visitedAfter p walk'
  end.

(** No heading anywhere after position [p] of the document. *)
Definition noHeadingAfter (ast : node) (p : path) : bool :=
  forallb (fun n => negb (hasType "heading" n)) (visitedAfter p (visitOrder ast)).

(** What the filler-skipping loop looks for: a link or a linkReference. *)
Definition linkLike (n : node) : bool :=
  hasType "linkReference" n || hasType "link" n.

Definition notLinkLike (n : node) : bool := negb (linkLike n).

Definition punctuationReason : string :=
  "List item description must end with proper punctuation".

(** The messages [validateListItemDescription] is seen to report. *)
Definition descriptionReasons : list string :=
  separatorReasons
  ++ [punctuationReason;
      "List item description contains invalid markdown";
      "List item description must start with a non-empty string";
      casingReason]%string.

Definition notBacktick (c : N) : bool := negb (N.eqb c backtick).

(** The elements of a list with their indices, counted from [start]. *)
Definition numbered (start : nat) (l : list node) : list (nat * node) :=
  combine (seq start (List.length l)) l.

(** The shape [validateList] asks of an entry before it looks for a link:
    a first child that is a paragraph with at least one child. *)
Definition startsWithParagraph (listItem : node) : bool :=
  match children listItem with
  | paragraph :: _ =>
      hasType "paragraph" paragraph && nonEmptyList (children paragraph)
  | [] => false
  end.

Definition invalidItemReason : string := "Invalid list item".

Definition notGreaterThan (c : N) : bool := negb (N.eqb c 62).

Definition notLessThan (c : N) : bool := negb (N.eqb c 60).

(** The first check of a sequence that fails, with its message; [None]
    when every check passes.  A check is given by the message it would
    report, [None] when it passes. *)
Definition firstFailure (checks : list (option message)) : option message :=
  fold_right
    (fun check later =>
       match check with
       | Some m => Some m
       | None => later
       end)
    None checks.

(** The message a validator reports when it fails, read off its run on an
    empty file. *)
Definition reported (check : vfile -> bool * vfile) : option message :=
  if fst (check []) then None else hd_error (snd (check [])).

(** The message of the dash-separator check, one of three by the text of
    the first node. *)
Definition separatorMessage (dash : node) : message :=
  if re_dash_with_odd_space (toString dash) then
    Message "List item link and description separated by invalid whitespace"
      (Some dash)
  else if re_long_dash (toString dash) then
    Message
      "List item link and description separated by invalid en-dash or em-dash"
      (Some dash)
  else
    Message "List item link and description must be separated with a dash"
      (Some dash).

(** The checks of [validateListItemDescription] in the order of the source,
    each taken on its own: the dash separator, the badge scan, the type of
    the last node before the badges, the punctuation, and then either the
    casing (one text node) or the markup and the guarded casing (mixed
    nodes).  No check at all for the empty description and for the special
    cases. *)
Definition descriptionChecks {collaborators : Collaborators}
    (description : list node) : list (option message) :=
  match description with
  | [] => []
  | dash :: _ =>
      if validateListItemSpecialCases description (toStringAll description)
      then []
      else
        let suffix := suffixWithoutBadge description dash in
        [ (if negb (hasType "text" dash)
              || negb (validateListItemPrefix (toStringAll description)
                         (toString dash))
           then Some (separatorMessage dash) else None);
          (if (lastNonBadgeIndex description <? 0)%Z
           then Some (Message onlyBadgesReason (Some dash)) else None);
          (if negb (has listItemDescriptionSuffixNodeAllowList (type suffix))
           then Some (Message punctuationReason (Some suffix)) else None);
          (if hasType "text" suffix
              && negb (validateListItemSuffix (lastSuffixText description)
                         (toString suffix))
           then Some (Message punctuationReason (Some suffix)) else None) ]
        ++ (if (lastNonBadgeIndex description =? 0)%Z
            then [reported (validateListItemPrefixCasing dash)]
            else
              [ option_map
                  (fun n =>
                     Message "List item description contains invalid markdown"
                       (Some n))
                  (List.find
                     (fun n =>
                        negb (has listItemDescriptionNodeAllowList (type n)))
                     (beforeBadges description));
                (if js_gt (node_length dash) 3
                 then reported (validateListItemPrefixCasing dash)
                 else None) ])
  end.

(** The checks [validateList] runs on one entry, in the order of the
    source: the paragraph, then (unless the entry starts with text) the
    link, the children of the link and the checks of the description. *)
Definition entryChecks {collaborators : Collaborators} (listItem : node)
    : list (option message) :=
  match children listItem with
  | [] => [Some (Message "Invalid list item" None)]
  | paragraph :: _ =>
      if negb (hasType "paragraph" paragraph)
         || (List.length (children paragraph) =? 0)
      then [Some (Message "Invalid list item" (Some paragraph))]
      else
        match children paragraph with
        | [] => []
        | first :: others =>
            if hasType "text" first then []
            else
              [ reported (validateListItemLink (fst (skipFiller first others)));
                reported
                  (validateListItemLinkChildren
                     (fst (skipFiller first others))) ]
              ++ descriptionChecks (snd (skipFiller first others))
        end
  end.

(** The verdict [validateListItemDescription] returns when no check
    fails: [undefined] for the empty description, true otherwise. *)
Definition passingVerdict (description : list node) : option bool :=
  match description with
  | [] => None
  | _ :: _ => Some true
  end.

(** The opening marks a first word can really start with: the apostrophe
    of the pattern is a separator and never stands in a token. *)
Definition isQuoteOrParenthesis (c : N) : bool :=
  N.eqb c 34 || N.eqb c 0x201C || N.eqb c 40.

(** A code unit that [tokenizeWords] does not split at. *)
Definition notSeparator (c : N) : bool := negb (isWordSeparator c).

(* ================================================================== *)
(** * Properties *)

Section Properties.

Context {collaborators : Collaborators}.

(** ** The filler-skipping loop *)

Lemma skipFiller_unfold (link : node) (description : list node) :
  skipFiller link description =
  match skipStep (link, description) with
  | Some (link', description') => skipFiller link' description'
  | None => (link, description)
  end.
Proof.
  destruct description as [|next rest]; simpl.
  - destruct (skipCondition link []); reflexivity.
  - destruct (skipCondition link (next :: rest)); reflexivity.
Qed.

Lemma skipStep_shrinks (link link' : node) (description description' : list node) :
  skipStep (link, description) = Some (link', description') ->
  List.length description = S (List.length description')
  /\ 1 <= List.length description'.
Proof.
  unfold skipStep.
  destruct (skipCondition link description) eqn:Hcond; [|discriminate].
  destruct description as [|next rest]; [discriminate|].
  intros Heq; injection Heq as <- <-.
  unfold skipCondition in Hcond.
  apply andb_prop in Hcond as [_ Hlen].
  apply Nat.ltb_lt in Hlen. simpl in *. lia.
Qed.

Lemma skipFiller_reached (description : list node) :
  forall link,
  exists turns,
    turns <= List.length description
    /\ skipSteps turns (link, description)
       = Some (skipFiller link description)
    /\ skipStep (skipFiller link description) = None.
Proof.
  induction description as [|next rest IH]; intros link.
  - exists 0. simpl.
    unfold skipCondition; simpl. rewrite andb_false_r. auto.
  - destruct (skipCondition link (next :: rest)) eqn:Hcond.
    + destruct (IH next) as (turns & Hle & Hrun & Hstop).
      exists (S turns). simpl. rewrite Hcond.
      repeat split; [lia | exact Hrun | exact Hstop].
    + exists 0. simpl. rewrite Hcond. simpl. rewrite Hcond.
      repeat split; lia.
Qed.

Lemma skipFiller_keeps_one (description : list node) :
  forall link,
    skipCondition link description = true ->
    1 <= List.length (snd (skipFiller link description)).
Proof.
  induction description as [|next rest IH]; intros link Hcond.
  - unfold skipCondition in Hcond. simpl in Hcond.
    rewrite andb_false_r in Hcond. discriminate.
  - simpl. rewrite Hcond.
    assert (Hlen : 1 <= List.length rest).
    { unfold skipCondition in Hcond.
      apply andb_prop in Hcond as [_ Hlen].
      apply Nat.ltb_lt in Hlen. simpl in Hlen. lia. }
    destruct (skipCondition next rest) eqn:Hnext.
    + apply IH. exact Hnext.
    + destruct rest as [|r rest']; [simpl in Hlen; lia|].
      simpl. rewrite Hnext. simpl. lia.
Qed.

(** C9. The filler-skipping loop of [validateList] terminates: every turn
    removes exactly one element from the description, so the loop stops
    after at most as many turns as the description has elements, in the
    state [skipFiller] computes, where the loop condition is false.  And
    the loop never empties the description: if it ran at all, at least one
    element is left. *)
Theorem C9_filler_loop_terminates_and_keeps_an_element
    (link : node) (description : list node) :
  (forall l d l' d',
      skipStep (l, d) = Some (l', d') -> List.length d' < List.length d)
  /\ (exists turns,
        turns <= List.length description
        /\ skipSteps turns (link, description)
           = Some (skipFiller link description)
        /\ skipStep (skipFiller link description) = None)
  /\ (skipStep (link, description) <> None ->
      snd (skipFiller link description) <> []).
Proof.
  split; [|split].
  - intros l d l' d' Hstep.
    apply skipStep_shrinks in Hstep. lia.
  - apply skipFiller_reached.
  - intros Hran.
    assert (Hcond : skipCondition link description = true).
    { unfold skipStep in Hran.
      destruct (skipCondition link description); [reflexivity|].
      exfalso; apply Hran; reflexivity. }
    pose proof (skipFiller_keeps_one description link Hcond) as Hlen.
    destruct (snd (skipFiller link description)); [simpl in Hlen; lia|].
    discriminate.
Qed.

(** ** One message at most *)

Lemma validateListItemLink_reports (link : node) :
  reportsOnFailure (validateListItemLink link).
Proof.
  unfold reportsOnFailure, validateListItemLink, file_message.
  destruct (hasType "linkReference" link); [left; reflexivity|].
  destruct (hasType "link" link); simpl; [|right; eexists; reflexivity].
  destruct (isUrl (url link)); simpl; [|right; eexists; reflexivity].
  destruct (nonEmpty (toString link)); simpl;
    [left; reflexivity | right; eexists; reflexivity].
Qed.

Lemma validateListItemLinkChildren_reports (link : node) :
  reportsOnFailure (validateListItemLinkChildren link).
Proof.
  unfold reportsOnFailure, validateListItemLinkChildren, file_message.
  destruct (List.find _ (children link));
    [right; eexists; reflexivity | left; reflexivity].
Qed.

Lemma validateListItemPrefixCasing_reports (prefix : node) :
  reportsOnFailure (validateListItemPrefixCasing prefix).
Proof.
  unfold reportsOnFailure, validateListItemPrefixCasing, file_message.
  destruct (tokenizeWords _) as [|firstWord others];
    [right; eexists; reflexivity|].
  match goal with
  | |- context [if ?c then _ else _] => destruct c
  end; [right; eexists; reflexivity | left; reflexivity].
Qed.

(** The same for the description validator, whose result may also be
    [undefined]. *)
Lemma validateListItemDescription_reports (description : list node) :
  (exists verdict, verdict <> Some false
     /\ forall file,
          validateListItemDescription description file = (verdict, file))
  \/ (exists m, forall file,
        validateListItemDescription description file
        = (Some false, file ++ [m])).
Proof.
  unfold validateListItemDescription, file_message.
  destruct description as [|dash others].
  { left; exists None; split; [discriminate | reflexivity]. }
  pose proof (validateListItemPrefixCasing_reports dash) as Hcasing.
  repeat match goal with
  | |- context [if ?c then _ else _] =>
      lazymatch c with
      | context [validateListItemPrefixCasing] => fail
      | _ => destruct c
      end
  | |- context [match List.find ?f ?l with _ => _ end] =>
      destruct (List.find f l)
  end;
  try (right; eexists; reflexivity);
  try (left; exists (Some true); split; [discriminate | reflexivity]).
  all: destruct Hcasing as [Hok | [m Hko]].
  all: try (left; exists (Some true); split; [discriminate|];
            intros file; rewrite Hok; reflexivity).
  all: try (right; exists m; intros file; rewrite Hko; reflexivity).
Qed.

(** What one list item adds to the file does not depend on the file, and
    is at most one message. *)
Lemma validateListItem_reports (listItem : node) :
  exists messages,
    List.length messages <= 1
    /\ forall file, validateListItem listItem file = file ++ messages.
Proof.
  unfold validateListItem, file_message.
  destruct (children listItem) as [|paragraph others].
  { eexists; split; [|reflexivity]. simpl; lia. }
  match goal with
  | |- context [if ?c then _ else _] => destruct c
  end.
  { eexists; split; [|reflexivity]. simpl; lia. }
  destruct (children paragraph) as [|first rest].
  { exists []; split; [simpl; lia | intros; now rewrite app_nil_r]. }
  destruct (hasType "text" first).
  { exists []; split; [simpl; lia | intros; now rewrite app_nil_r]. }
  destruct (skipFiller first rest) as [link description].
  destruct (validateListItemLink_reports link) as [Hlink | [m Hlink]].
  2:{ exists [m]; split; [simpl; lia|]. intros file. now rewrite Hlink. }
  destruct (validateListItemLinkChildren_reports link) as [Hkids | [m Hkids]].
  2:{ exists [m]; split; [simpl; lia|]. intros file.
      rewrite Hlink. simpl. now rewrite Hkids. }
  destruct (validateListItemDescription_reports description)
    as [(verdict & _ & Hdesc) | [m Hdesc]].
  - exists []; split; [simpl; lia|]. intros file.
    rewrite Hlink. simpl. rewrite Hkids. simpl. rewrite Hdesc.
    simpl. now rewrite app_nil_r.
  - exists [m]; split; [simpl; lia|]. intros file.
    rewrite Hlink. simpl. rewrite Hkids. simpl. now rewrite Hdesc.
Qed.

Lemma validateListItem_appends (listItem : node) (file : vfile) :
  validateListItem listItem file = file ++ validateListItem listItem [].
Proof.
  destruct (validateListItem_reports listItem) as (messages & _ & H).
  rewrite (H file), (H []). reflexivity.
Qed.

Lemma validateListItem_at_most_one (listItem : node) :
  List.length (validateListItem listItem []) <= 1.
Proof.
  destruct (validateListItem_reports listItem) as (messages & Hlen & H).
  rewrite (H []). exact Hlen.
Qed.

Lemma validateItems_appends (items : list node) :
  forall file,
    fold_left (fun f listItem => validateListItem listItem f) items file
    = file ++ flat_map (fun listItem => validateListItem listItem []) items.
Proof.
  induction items as [|item items IH]; intros file; simpl.
  - now rewrite app_nil_r.
  - rewrite IH, (validateListItem_appends item file), app_assoc.
    reflexivity.
Qed.

Lemma validateList_appends (list : node) (file : vfile) :
  validateList list file
  = file ++ flat_map (fun listItem => validateListItem listItem [])
              (children list).
Proof. apply validateItems_appends. Qed.

Lemma validateLists_appends (lists : list node) :
  forall file,
    validateLists lists file
    = file ++ flat_map (fun list => validateList list []) lists.
Proof.
  unfold validateLists.
  induction lists as [|l lists IH]; intros file; simpl.
  - now rewrite app_nil_r.
  - rewrite IH, (validateList_appends l file), (validateList_appends l []).
    simpl. now rewrite app_assoc.
Qed.

Lemma reported_spec (check : vfile -> bool * vfile) :
  reportsOnFailure check ->
  forall file,
    check file
    = match reported check with
      | Some m => (false, file ++ [m])
      | None => (true, file)
      end.
Proof.
  unfold reported. intros [Hok | [m Hfail]] file.
  - rewrite (Hok []), (Hok file). reflexivity.
  - rewrite (Hfail []), (Hfail file). reflexivity.
Qed.

Lemma firstFailure_app (checks checks' : list (option message)) :
  firstFailure (checks ++ checks')
  = match firstFailure checks with
    | Some m => Some m
    | None => firstFailure checks'
    end.
Proof.
  induction checks as [|[m|] checks IH]; simpl; auto.
Qed.

(** The description validator reports the message of the first of its
    checks that fails and nothing of the checks after it. *)
Lemma description_first_failure (description : list node) (file : vfile) :
  validateListItemDescription description file
  = match firstFailure (descriptionChecks description) with
    | Some m => (Some false, file ++ [m])
    | None => (passingVerdict description, file)
    end.
Proof.
  unfold validateListItemDescription, descriptionChecks, file_message,
    separatorMessage, onlyBadgesReason, punctuationReason.
  destruct description as [|dash others]; [reflexivity|].
  rewrite (reported_spec _ (validateListItemPrefixCasing_reports dash) file).
  destruct (validateListItemSpecialCases _ _); [reflexivity|].
  destruct (negb (hasType "text" dash) || _).
  { cbn [app firstFailure fold_right].
    destruct (re_dash_with_odd_space (toString dash)); [reflexivity|].
    destruct (re_long_dash (toString dash)); reflexivity. }
  destruct (lastNonBadgeIndex (dash :: others) <? 0)%Z; [reflexivity|].
  destruct (negb (has listItemDescriptionSuffixNodeAllowList _));
    [reflexivity|].
  destruct (hasType "text" _ && negb _); [reflexivity|].
  destruct (lastNonBadgeIndex (dash :: others) =? 0)%Z.
  - cbn [app firstFailure fold_right passingVerdict].
    destruct (reported (validateListItemPrefixCasing dash)); reflexivity.
  - destruct (List.find _ (beforeBadges (dash :: others))); [reflexivity|].
    cbn [app firstFailure fold_right option_map passingVerdict].
    destruct (js_gt (node_length dash) 3); [|reflexivity].
    destruct (reported (validateListItemPrefixCasing dash)); reflexivity.
Qed.

(** An entry adds the message of the first of its checks that fails, and
    nothing when all pass. *)
Lemma entry_first_failure (listItem : node) (file : vfile) :
  validateListItem listItem file
  = file ++ match firstFailure (entryChecks listItem) with
            | Some m => [m]
            | None => []
            end.
Proof.
  unfold validateListItem, entryChecks, file_message.
  destruct (children listItem) as [|paragraph siblings]; [reflexivity|].
  destruct (negb (hasType "paragraph" paragraph) || _); [reflexivity|].
  destruct (children paragraph) as [|first others];
    [simpl; now rewrite app_nil_r|].
  destruct (hasType "text" first); [simpl; now rewrite app_nil_r|].
  destruct (skipFiller first others) as [link description].
  cbn [fst snd].
  rewrite (reported_spec _ (validateListItemLink_reports link) file).
  cbn [app firstFailure fold_right].
  destruct (reported (validateListItemLink link)); [reflexivity|].
  cbn [negb].
  rewrite (reported_spec _ (validateListItemLinkChildren_reports link) file).
  destruct (reported (validateListItemLinkChildren link)); [reflexivity|].
  cbn [negb]. rewrite description_first_failure.
  change (fold_right
            (fun check later =>
               match check with
               | Some m => Some m
               | None => later
               end) None (descriptionChecks description))
    with (firstFailure (descriptionChecks description)).
  destruct (firstFailure (descriptionChecks description)); simpl;
    [reflexivity | now rewrite app_nil_r].
Qed.

(** C6. One validation pass emits at most one diagnostic per entry, that
    of the first check that fails.  The checks of an entry are, in the
    order of the source, the paragraph, the link, the children of the link
    and the checks of the description; what the entry adds to the file is
    the message of the first of them that fails, and nothing of the checks
    behind it, or nothing at all when every check passes.  The same holds
    inside the description validator, whose verdict is a failure exactly
    then.  Each validator either passes without a message or fails with
    exactly one; what an entry contributes is the same whatever was
    reported before it; and the messages of a list, and of a sequence of
    lists, are the contributions of their entries one after the other,
    each of length at most one. *)
Theorem C6_at_most_one_diagnostic_per_entry
    (lists : list node) (file : vfile) :
  validateLists lists file
  = file ++ flat_map
              (fun list =>
                 flat_map (fun listItem => validateListItem listItem [])
                   (children list))
              lists
  /\ (forall listItem before,
        validateListItem listItem before
        = before ++ validateListItem listItem []
        /\ List.length (validateListItem listItem []) <= 1)
  /\ (forall link,
        reportsOnFailure (validateListItemLink link)
        /\ reportsOnFailure (validateListItemLinkChildren link))
  /\ (forall description,
        (exists verdict, verdict <> Some false
           /\ forall before,
                validateListItemDescription description before
                = (verdict, before))
        \/ (exists m, forall before,
              validateListItemDescription description before
              = (Some false, before ++ [m])))
  /\ (forall listItem before,
        validateListItem listItem before
        = before ++ match firstFailure (entryChecks listItem) with
                    | Some m => [m]
                    | None => []
                    end)
  /\ (forall description before,
        validateListItemDescription description before
        = match firstFailure (descriptionChecks description) with
          | Some m => (Some false, before ++ [m])
          | None => (passingVerdict description, before)
          end).
Proof.
  split; [|split; [|split; [|split; [|split]]]].
  - rewrite validateLists_appends. f_equal.
    induction lists as [|l lists IH]; simpl; [reflexivity|].
    rewrite IH, (validateList_appends l []). reflexivity.
  - intros listItem before. split.
    + apply validateListItem_appends.
    + apply validateListItem_at_most_one.
  - intros link. split.
    + apply validateListItemLink_reports.
    + apply validateListItemLinkChildren_reports.
  - apply validateListItemDescription_reports.
  - apply entry_first_failure.
  - apply description_first_failure.
Qed.

(** ** Entries that start with text *)

(** C7. An entry whose first child is a paragraph that starts with a plain
    text node is accepted at once: validating it leaves the file as it
    was, whatever else the paragraph and the entry contain. *)
Theorem C7_text_led_entry_is_accepted
    (listItem paragraph first : node) (siblings others : list node)
    (file : vfile) :
  children listItem = paragraph :: siblings ->
  hasType "paragraph" paragraph = true ->
  children paragraph = first :: others ->
  hasType "text" first = true ->
  validateListItem listItem file = file.
Proof.
  intros Hitem Hpara Hkids Htext.
  unfold validateListItem.
  rewrite Hitem, Hpara, Hkids, Htext. reflexivity.
Qed.

(** ** Link references *)

Lemma find_none_forallb {A} (p : A -> bool) (l : list A) :
  List.find (fun x => negb (p x)) l = None <-> forallb p l = true.
Proof.
  induction l as [|x l IH]; simpl; [tauto|].
  destruct (p x); simpl; [exact IH|].
  split; discriminate.
Qed.

(** C3, as the code has it.  [validateListItemLink] accepts every
    linkReference without a message, whatever its URL, text and children.
    The guard on the children of the link applies to a linkReference all
    the same: it passes exactly when every direct child is an emphasis,
    inlineCode or text node, and otherwise reports the first other child
    as an invalid list item link. *)
Theorem C3_link_reference_passes_up_to_child_guard
    (link : node) (file : vfile) :
  hasType "linkReference" link = true ->
  validateListItemLink link file = (true, file)
  /\ (validateListItemLinkChildren link file = (true, file)
      <-> forallb linkChildAllowed (children link) = true)
  /\ (forall child,
        List.find (fun n => negb (linkChildAllowed n)) (children link)
        = Some child ->
        validateListItemLinkChildren link file
        = (false, file ++ [Message "Invalid list item link" (Some child)])).
Proof.
  intros Href. split; [|split].
  - unfold validateListItemLink. rewrite Href. reflexivity.
  - unfold validateListItemLinkChildren.
    rewrite <- find_none_forallb. fold linkChildAllowed.
    change (fun n => negb (has listItemLinkNodeAllowList (type n)))
      with (fun n => negb (linkChildAllowed n)).
    destruct (List.find _ (children link)); split; intros H;
      try reflexivity; discriminate.
  - intros child Hfind. unfold validateListItemLinkChildren.
    change (fun n => negb (has listItemLinkNodeAllowList (type n)))
      with (fun n => negb (linkChildAllowed n)).
    rewrite Hfind. reflexivity.
Qed.

(** ** Descriptions made of badges *)

Lemma dropWhile_all {A} (p : A -> bool) (l : list A) :
  forallb p l = true -> dropWhile p l = [].
Proof.
  induction l as [|x l IH]; simpl; [reflexivity|].
  intros H. apply andb_prop in H as [Hx Hl]. rewrite Hx. auto.
Qed.

Lemma forallb_rev {A} (p : A -> bool) (l : list A) :
  forallb p (rev l) = forallb p l.
Proof.
  induction l as [|x l IH]; simpl; [reflexivity|].
  rewrite forallb_app, IH. simpl. rewrite andb_true_r. apply andb_comm.
Qed.

Lemma trim_blank (text : jsstring) :
  re_blank text = true -> trim text = [].
Proof.
  unfold re_blank, trim, trimEnd. intros H.
  rewrite (dropWhile_all isWhiteSpace (rev text)).
  - reflexivity.
  - rewrite forallb_rev. exact H.
Qed.

Lemma removeMatches_forallb (matchLength : jsstring -> nat)
    (p : N -> bool) (text : jsstring) :
  forallb p text = true ->
  forall skip, forallb p (removeMatches matchLength skip text) = true.
Proof.
  induction text as [|c text IH]; simpl; [reflexivity|].
  intros H skip. apply andb_prop in H as [Hc Htext].
  destruct skip as [|k]; [|auto].
  destruct (matchLength (c :: text)); [|auto].
  simpl. rewrite Hc. simpl. auto.
Qed.

Lemma blank_has_no_dash (text : jsstring) :
  re_blank text = true -> startsWith (lit " - ") text = false.
Proof.
  unfold re_blank.
  change (lit " - ") with [32; 45; 32]%N.
  destruct text as [|a [|b text]]; cbn [startsWith forallb];
    try reflexivity.
  - intros _. apply andb_false_r.
  - intros H.
    apply andb_prop in H as [_ H]. apply andb_prop in H as [Hb _].
    destruct (N.eqb_spec 45 b) as [<-|_].
    + discriminate Hb.
    + apply andb_false_r.
Qed.

Lemma str_eqb_eq (a b : jsstring) : str_eqb a b = true -> a = b.
Proof.
  revert b; induction a as [|x a IH]; intros [|y b]; simpl;
    try discriminate; [reflexivity|].
  intros H. apply andb_prop in H as [Hxy Hab].
  apply N.eqb_eq in Hxy. f_equal; auto.
Qed.

(** A blank description is one of the special cases. *)
Lemma blank_is_special (description : list node) (text : jsstring) :
  re_blank text = true ->
  validateListItemSpecialCases description text = true.
Proof.
  intros Hblank. unfold validateListItemSpecialCases.
  rewrite (blank_has_no_dash _ Hblank).
  rewrite trim_blank; [reflexivity|].
  apply removeMatches_forallb. exact Hblank.
Qed.

(** A text node that is a badge cannot pass the dash-separator check
    unless the description is a special case. *)
Lemma blank_dash_fails_prefix (description : list node) (dash : node) :
  hasType "text" dash = true ->
  isBadge dash = true ->
  validateListItemSpecialCases description (toStringAll description) = false ->
  validateListItemPrefix (toStringAll description) (toString dash) = false.
Proof.
  intros Htext Hbadge Hspecial.
  assert (Hblank : re_blank (toString dash) = true).
  { unfold isBadge in Hbadge. unfold hasType in *.
    apply String.eqb_eq in Htext. rewrite Htext in Hbadge.
    simpl in Hbadge. exact Hbadge. }
  unfold validateListItemPrefix.
  rewrite (blank_has_no_dash _ Hblank).
  destruct (textEndsWithEmoji (toString dash)); [|reflexivity].
  destruct (str_eqb (toStringAll description) (toString dash)) eqn:Heq;
    [|reflexivity].
  apply str_eqb_eq in Heq.
  rewrite blank_is_special in Hspecial; [discriminate|].
  rewrite Heq. exact Hblank.
Qed.

Lemma skipBadges_negative (description : list node) (examined : nat) :
  (skipBadges description examined < 0)%Z ->
  forall index, index < examined ->
    exists n, nth_error description index = Some n /\ isBadge n = true.
Proof.
  induction examined as [|k IH]; simpl; intros Hneg index Hlt; [lia|].
  destruct (nth_error description k) as [n|] eqn:Hn; [|lia].
  destruct (isBadge n) eqn:Hbadge; [|lia].
  destruct (Nat.eq_dec index k) as [->|Hne].
  - exists n. auto.
  - apply IH; [exact Hneg | lia].
Qed.

(** The test [lastNonBadgeIndex < 0] never holds where it stands: the
    checks before it have let no description through whose elements are
    all badges. *)
Lemma badge_check_unreachable (dash : node) (others : list node) :
  let description := dash :: others in
  validateListItemSpecialCases description (toStringAll description) = false ->
  negb (hasType "text" dash)
  || negb (validateListItemPrefix (toStringAll description) (toString dash))
  = false ->
  (lastNonBadgeIndex description <? 0)%Z = false.
Proof.
  intros description Hspecial Hprefix.
  apply orb_false_elim in Hprefix as [Htext Hpass].
  apply negb_false_iff in Htext, Hpass.
  apply Z.ltb_ge.
  destruct (Z.lt_ge_cases (lastNonBadgeIndex description) 0) as [Hneg|Hge];
    [|exact Hge].
  exfalso.
  destruct (skipBadges_negative description _ Hneg 0) as (n & Hn & Hbadge).
  { simpl. lia. }
  simpl in Hn. injection Hn as <-.
  rewrite (blank_dash_fails_prefix description dash Htext Hbadge Hspecial)
    in Hpass.
  discriminate.
Qed.

Lemma validateListItemPrefixCasing_cases (prefix : node) (file : vfile) :
  validateListItemPrefixCasing prefix file = (true, file)
  \/ validateListItemPrefixCasing prefix file
     = (false,
        file ++ [Message "List item description must start with a non-empty string"
                   (Some prefix)])
  \/ validateListItemPrefixCasing prefix file
     = (false, file ++ [Message casingReason (Some prefix)]).
Proof.
  unfold validateListItemPrefixCasing, file_message.
  destruct (tokenizeWords _); [auto|].
  match goal with
  | |- context [if ?c then _ else _] => destruct c
  end; auto.
Qed.

(** No description is ever reported as consisting of only badges. *)
Lemma only_badges_never_reported (description : list node) (file : vfile)
    (m : message) :
  In m (snd (validateListItemDescription description file)) ->
  In m file \/ reason m <> onlyBadgesReason.
Proof.
  unfold validateListItemDescription, file_message.
  destruct description as [|dash others]; [simpl; auto|].
  destruct (validateListItemSpecialCases _ _) eqn:Hspecial; [simpl; auto|].
  destruct (negb (hasType "text" dash) || _) eqn:Hprefix.
  { repeat match goal with
      | |- context [if ?c then _ else _] => destruct c
      end; simpl; intros Hin; apply in_app_or in Hin as [Hin|[<-|[]]];
      auto; right; discriminate. }
  rewrite (badge_check_unreachable dash others Hspecial Hprefix).
  destruct (validateListItemPrefixCasing_cases dash file)
    as [Hc | [Hc | Hc]]; rewrite Hc;
    repeat match goal with
      | |- context [if ?c then _ else _] => destruct c
      | |- context [match List.find ?f ?l with _ => _ end] =>
          destruct (List.find f l)
      end; simpl; intros Hin; auto;
    apply in_app_or in Hin as [Hin|[<-|[]]]; auto; right; discriminate.
Qed.

(** C1, as the code has it.  A description whose elements are all badges
    (inlineCode nodes and white-space text nodes), a single inlineCode
    node among them, does not get as far as the badge scan.  Either it is
    one of the special cases and is accepted, or it fails the dash-separator
    check, which comes first, with one of the three separator messages
    reported on its first element. *)
Theorem C1_badges_alone_fail_the_separator_check
    (description : list node) (file : vfile) :
  description <> [] ->
  forallb isBadge description = true ->
  (validateListItemSpecialCases description (toStringAll description) = true
   /\ validateListItemDescription description file = (Some true, file))
  \/ (exists r dash,
        hd_error description = Some dash
        /\ In r separatorReasons
        /\ validateListItemDescription description file
           = (Some false, file ++ [Message r (Some dash)])).
Proof.
  intros Hne Hbadges.
  destruct description as [|dash others]; [contradiction|].
  simpl in Hbadges. apply andb_prop in Hbadges as [Hdash _].
  unfold validateListItemDescription, file_message.
  destruct (validateListItemSpecialCases _ _) eqn:Hspecial; [left; auto|].
  right.
  assert (Hprefix :
    negb (hasType "text" dash)
    || negb (validateListItemPrefix (toStringAll (dash :: others))
               (toString dash)) = true).
  { destruct (hasType "text" dash) eqn:Htext; [|reflexivity].
    rewrite (blank_dash_fails_prefix _ dash Htext Hdash Hspecial).
    reflexivity. }
  rewrite Hprefix.
  destruct (re_dash_with_odd_space (toString dash));
    [|destruct (re_long_dash (toString dash))];
    eexists; exists dash; (split; [reflexivity|]);
    (split; [|reflexivity]); simpl; auto.
Qed.

(** ** Mixed descriptions and the casing of the first word *)

(** [dash.length > 3] is false for every node, so a description whose
    last element before the badges is not its first element never has its
    first word checked: no message about casing comes out of it. *)
Lemma mixed_description_skips_casing (description : list node)
    (file : vfile) (m : message) :
  (lastNonBadgeIndex description =? 0)%Z = false ->
  In m (snd (validateListItemDescription description file)) ->
  In m file \/ reason m <> casingReason.
Proof.
  intros Hmixed.
  unfold validateListItemDescription, file_message.
  destruct description as [|dash others]; [simpl; auto|].
  rewrite Hmixed.
  change (js_gt (node_length dash) 3) with false.
  repeat match goal with
    | |- context [if ?c then _ else _] => destruct c
    | |- context [match List.find ?f ?l with _ => _ end] =>
        destruct (List.find f l)
    end; simpl; intros Hin; auto;
    apply in_app_or in Hin as [Hin|[<-|[]]]; auto; right; discriminate.
Qed.

(** C2.  The code at the failing input: in the mixed description
    [ - a tool by [Foo](https://example.com).] the text of the dash
    element is longer than 3 code units and its first word is in lower
    case, which the casing check rejects; yet the description is accepted
    without a message, for all collaborators.  The test [dash.length > 3]
    reads the length of a node, which is undefined, so no mixed
    description ever has its first word checked. *)
Theorem C2_mixed_description_is_never_checked_for_casing :
  (3 < List.length (toString Sample.mixedDash))
  /\ @validateListItemPrefixCasing Sample.collaborators Sample.mixedDash []
     = (false, [Message casingReason (Some Sample.mixedDash)])
  /\ (forall file,
        validateListItemDescription Sample.mixedDescription file
        = (Some true, file))
  /\ (forall description file m,
        (lastNonBadgeIndex description =? 0)%Z = false ->
        In m (snd (validateListItemDescription description file)) ->
        In m file \/ reason m <> casingReason).
Proof.
  split; [|split; [|split]].
  - vm_compute. lia.
  - vm_compute. reflexivity.
  - intros file. vm_compute. reflexivity.
  - intros description file m. apply mixed_description_skips_casing.
Qed.

(** ** Badges and the punctuation check *)

Lemma skipBadges_over_badges (prefix badges : list node) :
  forallb isBadge badges = true ->
  forall k, k <= List.length badges ->
    skipBadges (prefix ++ badges) (List.length prefix + k)
    = skipBadges (prefix ++ badges) (List.length prefix).
Proof.
  intros Hbadges k. induction k as [|k IH]; intros Hk.
  - now rewrite Nat.add_0_r.
  - rewrite Nat.add_succ_r. simpl.
    rewrite nth_error_app2 by lia.
    replace (List.length prefix + k - List.length prefix) with k by lia.
    destruct (nth_error badges k) as [b|] eqn:Hb.
    + rewrite forallb_forall in Hbadges.
      rewrite (Hbadges b (nth_error_In _ _ Hb)). apply IH. lia.
    + apply nth_error_None in Hb. lia.
Qed.

Lemma lastNonBadgeIndex_app (init badges : list node) (lastNode : node) :
  isBadge lastNode = false ->
  forallb isBadge badges = true ->
  lastNonBadgeIndex ((init ++ [lastNode]) ++ badges)
  = Z.of_nat (List.length init).
Proof.
  intros Hlast Hbadges. unfold lastNonBadgeIndex.
  rewrite length_app.
  rewrite (skipBadges_over_badges _ _ Hbadges) by lia.
  rewrite length_app. simpl. rewrite Nat.add_1_r. simpl.
  rewrite <- app_assoc. rewrite nth_error_app2 by lia.
  rewrite Nat.sub_diag. simpl. rewrite Hlast. reflexivity.
Qed.

Lemma beforeBadges_app (init badges : list node) (lastNode : node) :
  isBadge lastNode = false ->
  forallb isBadge badges = true ->
  beforeBadges ((init ++ [lastNode]) ++ badges) = init ++ [lastNode]
  /\ (forall dash,
        suffixWithoutBadge ((init ++ [lastNode]) ++ badges) dash = lastNode)
  /\ hasBadges ((init ++ [lastNode]) ++ badges) = nonEmptyList badges.
Proof.
  intros Hlast Hbadges.
  unfold beforeBadges, suffixWithoutBadge, hasBadges.
  rewrite (lastNonBadgeIndex_app _ _ _ Hlast Hbadges).
  rewrite Nat2Z.id. split; [|split].
  - replace (List.length init + 1) with (List.length (init ++ [lastNode]) + 0)
      by (rewrite length_app; simpl; lia).
    rewrite firstn_app_2. simpl. now rewrite app_nil_r.
  - intros dash. rewrite <- app_assoc. rewrite app_nth2 by lia.
    rewrite Nat.sub_diag. reflexivity.
  - rewrite !length_app. simpl.
    destruct badges as [|b badges]; simpl.
    + apply Z.ltb_ge. lia.
    + apply Z.ltb_lt. lia.
Qed.

Lemma punctuationCheck_app (init badges : list node) (lastNode : node) :
  isBadge lastNode = false ->
  forallb isBadge badges = true ->
  punctuationCheck ((init ++ [lastNode]) ++ badges)
  = validateListItemSuffix
      (if nonEmptyList badges then trimEnd (toStringAll (init ++ [lastNode]))
       else toStringAll (init ++ [lastNode]))
      (toString lastNode).
Proof.
  intros Hlast Hbadges.
  destruct (beforeBadges_app init badges lastNode Hlast Hbadges)
    as (Hbefore & Hsuffix & Hhas).
  unfold punctuationCheck, lastSuffixText.
  destruct ((init ++ [lastNode]) ++ badges) as [|dash others] eqn:Hd.
  { destruct init; discriminate Hd. }
  rewrite Hbefore, Hsuffix, Hhas. reflexivity.
Qed.

(** C5, as the code has it.  For a description that ends in a run of
    badges after a last element that is no badge, the punctuation check is
    run on the text of the surviving prefix with the white space at its
    end removed, whereas the prefix standing alone is checked with its
    text as it is.  The two verdicts agree whenever the text of the prefix
    does not end in white space. *)
Theorem C5_badges_trim_the_text_before_them
    (init badges : list node) (lastNode : node) :
  isBadge lastNode = false ->
  forallb isBadge badges = true ->
  badges <> [] ->
  let prefix := init ++ [lastNode] in
  punctuationCheck (prefix ++ badges)
  = validateListItemSuffix (trimEnd (toStringAll prefix)) (toString lastNode)
  /\ punctuationCheck prefix
     = validateListItemSuffix (toStringAll prefix) (toString lastNode)
  /\ (trimEnd (toStringAll prefix) = toStringAll prefix ->
      punctuationCheck (prefix ++ badges) = punctuationCheck prefix).
Proof.
  intros Hlast Hbadges Hne prefix.
  assert (Hwith :
    punctuationCheck (prefix ++ badges)
    = validateListItemSuffix (trimEnd (toStringAll prefix))
        (toString lastNode)).
  { unfold prefix. rewrite (punctuationCheck_app _ _ _ Hlast Hbadges).
    destruct badges; [contradiction | reflexivity]. }
  assert (Halone :
    punctuationCheck prefix
    = validateListItemSuffix (toStringAll prefix) (toString lastNode)).
  { pose proof (punctuationCheck_app init [] lastNode Hlast eq_refl) as H.
    rewrite app_nil_r in H. exact H. }
  split; [exact Hwith | split; [exact Halone|]].
  intros Htrim. rewrite Hwith, Halone, Htrim. reflexivity.
Qed.

(** ** The punctuation decision procedure *)

Lemma quote_is_no_punctuation (c : N) :
  isClosingQuote c = true -> isPunctuation c = false.
Proof.
  unfold isClosingQuote. intros H.
  apply orb_prop in H as [H|H]; apply N.eqb_eq in H; subst; reflexivity.
Qed.

Lemma dropWhile_app_all {A} (p : A -> bool) (l r : list A) :
  forallb p l = true -> dropWhile p (l ++ r) = dropWhile p r.
Proof.
  induction l as [|x l IH]; simpl; [reflexivity|].
  intros H. apply andb_prop in H as [Hx Hl]. rewrite Hx. auto.
Qed.

Lemma head_is_app (p : N -> bool) (l r : jsstring) :
  l <> [] -> forallb p l = true -> head_is p (l ++ r) = true.
Proof.
  destruct l as [|x l]; [contradiction|]. simpl.
  intros _ H. now apply andb_prop in H as [Hx _].
Qed.

Lemma rev_not_nil {A} (l : list A) : l <> [] -> rev l <> [].
Proof.
  destruct l as [|x l]; [contradiction|]. intros _. simpl.
  destruct (rev l); discriminate.
Qed.

(** A text that ends in a punctuation mark and a closing quote passes by
    the third pattern, whatever stands before the mark. *)
Lemma mark_then_quote_passes (before suffixText : jsstring) (mark quote : N) :
  isPunctuation mark = true ->
  isClosingQuote quote = true ->
  re_fully_backticked (before ++ [mark; quote]) = false ->
  validateListItemSuffix (before ++ [mark; quote]) suffixText = true.
Proof.
  intros Hmark Hquote Hticks. unfold validateListItemSuffix.
  rewrite Hticks.
  unfold re_quote_then_punctuation, re_punctuation_maybe_quote.
  rewrite rev_app_distr. simpl.
  rewrite (quote_is_no_punctuation _ Hquote), Hquote, Hmark. reflexivity.
Qed.

(** A text that ends in a closing quote and one or more punctuation marks
    after it passes unless a punctuation mark stands right before the
    quote. *)
Lemma quote_then_marks (before marks suffixText : jsstring) (quote : N) :
  isClosingQuote quote = true ->
  marks <> [] ->
  forallb isPunctuation marks = true ->
  re_fully_backticked (before ++ quote :: marks) = false ->
  validateListItemSuffix (before ++ quote :: marks) suffixText
  = negb (lastIs isPunctuation before).
Proof.
  intros Hquote Hne Hmarks Hticks. unfold validateListItemSuffix.
  rewrite Hticks.
  unfold re_quote_then_punctuation, re_punctuation_quote_punctuation, lastIs.
  rewrite rev_app_distr. simpl. rewrite <- app_assoc. simpl.
  assert (Hrev : forallb isPunctuation (rev marks) = true)
    by (rewrite forallb_rev; exact Hmarks).
  rewrite (head_is_app _ _ _ (rev_not_nil _ Hne) Hrev).
  rewrite (dropWhile_app_all _ _ _ Hrev). simpl.
  rewrite (quote_is_no_punctuation _ Hquote). simpl. rewrite Hquote. simpl.
  destruct (head_is isPunctuation (rev before)); reflexivity.
Qed.

(** C4, as the code has it.  For a text that is not one backticked span:
    if it ends in a closing double quote, straight or curly, with a
    terminal punctuation mark right before it, the check passes, also when
    a second mark stands before that one.  What the code rejects is a
    closing quote followed by one or more terminal marks at the end of
    the text when a terminal mark stands right before the quote; without
    one, quote and marks pass. *)
Theorem C4_punctuation_around_a_closing_quote
    (before suffixText : jsstring) (quote : N) :
  isClosingQuote quote = true ->
  (forall mark,
      isPunctuation mark = true ->
      re_fully_backticked (before ++ [mark; quote]) = false ->
      validateListItemSuffix (before ++ [mark; quote]) suffixText = true)
  /\ (forall marks,
        marks <> [] ->
        forallb isPunctuation marks = true ->
        re_fully_backticked (before ++ quote :: marks) = false ->
        validateListItemSuffix (before ++ quote :: marks) suffixText
        = negb (lastIs isPunctuation before)).
Proof.
  intros Hquote. split.
  - intros mark Hmark Hticks. now apply mark_then_quote_passes.
  - intros marks Hne Hmarks Hticks. now apply quote_then_marks.
Qed.

Lemma head_is_In (p : N -> bool) (text : jsstring) :
  head_is p text = true -> exists c, In c text /\ p c = true.
Proof.
  destruct text as [|c text]; simpl; [discriminate|].
  intros H. exists c. auto.
Qed.

Lemma existsb_false_In (p : N -> bool) (text : jsstring) (c : N) :
  existsb p text = false -> In c text -> p c = false.
Proof.
  intros Hnone Hin.
  destruct (p c) eqn:Hc; [|reflexivity].
  rewrite <- Hnone. symmetry. apply existsb_exists. exists c. auto.
Qed.

Lemma lastIs_without (p : N -> bool) (text : jsstring) :
  existsb p text = false -> head_is p (rev text) = false.
Proof.
  intros Hnone.
  destruct (head_is p (rev text)) eqn:Hhead; [|reflexivity].
  apply head_is_In in Hhead as (c & Hin & Hc).
  apply in_rev in Hin.
  rewrite (existsb_false_In p text c Hnone Hin) in Hc. discriminate.
Qed.

(** Without a punctuation mark none of the three patterns about the end
    of the text applies. *)
Lemma no_punctuation_patterns (text : jsstring) :
  re_has_punctuation text = false ->
  re_quote_then_punctuation text = false
  /\ re_punctuation_maybe_quote text = false.
Proof.
  unfold re_has_punctuation, re_quote_then_punctuation,
    re_punctuation_maybe_quote.
  intros Hnone. split.
  - rewrite (lastIs_without _ _ Hnone). reflexivity.
  - destruct (rev text) as [|c before] eqn:Hrev; [reflexivity|].
    assert (Hc : isPunctuation c = false).
    { apply (existsb_false_In _ text); [exact Hnone|].
      apply in_rev. rewrite Hrev. now left. }
    rewrite Hc. simpl.
    destruct (head_is isPunctuation before) eqn:Hhead;
      [|now rewrite andb_false_r].
    apply head_is_In in Hhead as (c' & Hin & Hc').
    assert (Hin' : In c' text).
    { apply in_rev. rewrite Hrev. now right. }
    rewrite (existsb_false_In _ text c' Hnone Hin') in Hc'. discriminate.
Qed.

Lemma no_punctuation_needs_short_emoji_text (fullText suffixText : jsstring) :
  re_fully_backticked fullText = false ->
  re_has_punctuation fullText = false ->
  (2 <? List.length (tokenizeWords fullText))
  || negb (lastTokenEndsWithEmoji (tokenizeWords fullText)) = true ->
  validateListItemSuffix fullText suffixText = false.
Proof.
  intros Hticks Hnone Hlong. unfold validateListItemSuffix.
  destruct (no_punctuation_patterns fullText Hnone) as [Hq Hp].
  rewrite Hticks, Hq, Hp, Hnone. simpl. rewrite Hlong. reflexivity.
Qed.

(** *** Texts that end in an emoji *)

Section PlainText.

(** No emoji starts with a letter, a space or a hyphen. *)
Hypothesis plain_is_no_emoji :
  forall c rest, isPlain c = true -> emojiLength (c :: rest) = 0.

Lemma allMatches_plain_then_emoji (plain : jsstring) (e : N) :
  forallb isPlain plain = true ->
  emojiLength [e] <> 0 ->
  forall index,
    allMatches emojiLength 0 index (plain ++ [e])
    = [(index + List.length plain, 1)].
Proof.
  intros Hplain He.
  induction plain as [|c plain IH]; intros index.
  - simpl. destruct (emojiLength [e]) as [|n]; [contradiction|].
    simpl. rewrite Nat.add_0_r. rewrite Nat.min_0_r. reflexivity.
  - simpl in Hplain. apply andb_prop in Hplain as [Hc Hplain].
    cbn [app allMatches].
    rewrite (plain_is_no_emoji c _ Hc). simpl Nat.min. cbv iota.
    rewrite (IH Hplain). simpl. f_equal. f_equal. lia.
Qed.

Lemma textEndsWithEmoji_plain_then_emoji (plain : jsstring) (e : N) :
  forallb isPlain plain = true ->
  emojiLength [e] <> 0 ->
  textEndsWithEmoji (plain ++ [e]) = true.
Proof.
  intros Hplain He. unfold textEndsWithEmoji.
  rewrite (allMatches_plain_then_emoji plain e Hplain He). simpl.
  apply Nat.leb_le. rewrite length_app. simpl. lia.
Qed.

End PlainText.

(** A description that is one text node starting with the dash separator
    and passing the punctuation check is as good as the casing of its
    first word. *)
Lemma single_text_description (text : jsstring) (file : vfile) :
  startsWith (lit " - ") text = true ->
  validateListItemSuffix text text = true ->
  validateListItemDescription [mkText text] file
  = (Some (fst (validateListItemPrefixCasing (mkText text) file)),
     snd (validateListItemPrefixCasing (mkText text) file)).
Proof.
  intros Hstart Hsuffix.
  assert (Hblank : re_blank text = false).
  { destruct (re_blank text) eqn:Hb; [|reflexivity].
    rewrite (blank_has_no_dash _ Hb) in Hstart. discriminate. }
  assert (Hbadge : isBadge (mkText text) = false).
  { unfold isBadge. simpl. exact Hblank. }
  assert (Hidx : lastNonBadgeIndex [mkText text] = 0%Z).
  { unfold lastNonBadgeIndex. simpl. rewrite Hbadge. reflexivity. }
  unfold validateListItemDescription.
  unfold validateListItemSpecialCases, validateListItemPrefix.
  unfold lastSuffixText, beforeBadges, hasBadges, suffixWithoutBadge.
  rewrite Hidx.
  change (toStringAll [mkText text]) with (text ++ []).
  change (toString (mkText text)) with text.
  rewrite app_nil_r, Hstart.
  cbn [hasType type mkText mkLiteral String.eqb negb orb Z.ltb Z.compare
       Z.to_nat nth Nat.add firstn List.length Z.of_nat Z.sub Z.eqb].
  change (toStringAll [mkText text]) with (text ++ []).
  rewrite app_nil_r.
  destruct (validateListItemPrefixCasing (mkText text) file) as [ok file'].
  simpl. rewrite Hsuffix. simpl.
  destruct ok; reflexivity.
Qed.


(** ** The Contents heading *)

Lemma visitOrder_unfold (tree : node) :
  visitOrder tree
  = ([], tree)
    :: indexed
         (fun index c =>
            List.map (fun pn => (index :: fst pn, snd pn)) (visitOrder c))
         0 (children tree).
Proof. destruct tree; reflexivity. Qed.

Lemma walkChildren_cons (index : nat) (c : node) (cs : list node) :
  walkChildren index (c :: cs)
  = ([index], c)
    :: List.map (fun pn => (index :: fst pn, snd pn))
         (walkChildren 0 (children c))
    ++ walkChildren (S index) cs.
Proof.
  unfold walkChildren at 1. simpl. rewrite (visitOrder_unfold c).
  reflexivity.
Qed.

Lemma children_are_walked (cs : list node) :
  forall index c, In c cs -> In c (List.map snd (walkChildren index cs)).
Proof.
  induction cs as [|c0 cs IH]; intros index c Hin; [contradiction|].
  rewrite walkChildren_cons. simpl.
  destruct Hin as [->|Hin]; [now left|].
  right. rewrite map_app. apply in_or_app. right. now apply IH.
Qed.

Lemma visitedAfter_skip (p : path) (walk rest : list (path * node)) :
  (forall q n, In (q, n) walk -> path_eqb p q = false) ->
  visitedAfter p (walk ++ rest) = visitedAfter p rest.
Proof.
  induction walk as [|[q n] walk IH]; intros Hnone; [reflexivity|].
  simpl. rewrite (Hnone q n) by now left.
  apply IH. intros q' n' Hin. apply (Hnone q' n'). now right.
Qed.

(** The children that follow child [target] of a node are among what
    [visit] reaches after that child. *)
Lemma later_children_are_visited_after (cs : list node) :
  forall index target c,
    index <= target ->
    In c (skipn (S (target - index)) cs) ->
    In c (visitedAfter [target] (walkChildren index cs)).
Proof.
  induction cs as [|c0 cs IH]; intros index target c Hle Hin.
  { rewrite skipn_nil in Hin. contradiction. }
  rewrite walkChildren_cons. cbn [visitedAfter path_eqb].
  rewrite andb_true_r.
  destruct (Nat.eqb_spec target index) as [->|Hne].
  - rewrite Nat.sub_diag in Hin. simpl in Hin.
    rewrite map_app. apply in_or_app. right.
    now apply children_are_walked.
  - rewrite visitedAfter_skip.
    + apply IH; [lia|].
      replace (target - index) with (S (target - S index)) in Hin by lia.
      exact Hin.
    + intros q n Hq. apply in_map_iff in Hq as ([q' n'] & Heq & _).
      injection Heq as <- _. simpl.
      destruct (Nat.eqb_spec target index); [contradiction | reflexivity].
Qed.

Lemma skipn_combine_snd {A B} (n : nat) :
  forall (l : list A) (l' : list B) (x : A * B),
    In x (skipn n (combine l l')) -> In (snd x) (skipn n l').
Proof.
  induction n as [|n IH]; intros l l' x Hin.
  - simpl in *. destruct x as [a b]. now apply in_combine_r in Hin.
  - destruct l as [|a l]; [contradiction|].
    destruct l' as [|b l']; [contradiction|].
    simpl in *. now apply (IH l l').
Qed.

Lemma findAllAfter_later_children (parent : node) (index : nat)
    (test : node -> bool) (x : nat * node) :
  In x (findAllAfter parent index test) ->
  In (snd x) (skipn (S index) (children parent)) /\ test (snd x) = true.
Proof.
  unfold findAllAfter. intros Hin.
  apply filter_In in Hin as [Hin Htest]. split; [|exact Htest].
  exact (skipn_combine_snd _ _ _ _ Hin).
Qed.

(** Without a heading anywhere after child [tocIndex] of the root,
    [findAllAfter] has no heading to offer. *)
Lemma no_heading_after_contents (ast : node) (tocIndex : nat) :
  noHeadingAfter ast [tocIndex] = true ->
  findAllAfter ast tocIndex (hasType "heading") = [].
Proof.
  unfold noHeadingAfter. intros Hnone.
  destruct (findAllAfter ast tocIndex (hasType "heading")) as [|x l] eqn:Hl;
    [reflexivity|].
  exfalso.
  destruct (findAllAfter_later_children ast tocIndex (hasType "heading") x)
    as [Hin Hheading].
  { rewrite Hl. now left. }
  rewrite visitOrder_unfold in Hnone. cbn [visitedAfter path_eqb] in Hnone.
  rewrite forallb_forall in Hnone.
  specialize (Hnone (snd x)).
  rewrite Hheading in Hnone. simpl in Hnone.
  assert (false = true); [|discriminate].
  apply Hnone.
  apply (later_children_are_visited_after (children ast) 0 tocIndex);
    [lia|].
  rewrite Nat.sub_0_r. exact Hin.
Qed.

(** C10, as the code has it.  When the first Contents heading that
    [find] meets is a child of the root and no heading comes anywhere
    after it, the rule returns at once: the file is left as it was,
    however many malformed entries the document holds. *)
Theorem C10_contents_without_later_heading_validates_nothing
    (ast : node) (file : vfile) (tocIndex : nat) :
  find isContentsHeading ast = Some [tocIndex] ->
  noHeadingAfter ast [tocIndex] = true ->
  listItemRule ast file = Some file.
Proof.
  intros Hfind Hnone. unfold listItemRule.
  rewrite Hfind. simpl indexOf. cbv iota.
  rewrite (no_heading_after_contents ast tocIndex Hnone). reflexivity.
Qed.

End Properties.

(* ================================================================== *)
(** * Further properties of the rule *)

Section FurtherProperties.

Context {collaborators : Collaborators}.

(** ** The words of a text *)

Lemma splitWords_concat (text : jsstring) :
  forall current,
    List.concat (splitWords current text)
    = rev current ++ filter notSeparator text.
Proof.
  induction text as [|c text IH]; intros current; simpl.
  - now rewrite !app_nil_r.
  - unfold notSeparator at 1. destruct (isWordSeparator c); simpl.
    + rewrite IH. reflexivity.
    + rewrite IH. simpl. rewrite <- app_assoc. reflexivity.
Qed.

Lemma splitWords_pieces (text : jsstring) :
  forall current,
    forallb notSeparator current = true ->
    Forall (fun piece => forallb notSeparator piece = true)
      (splitWords current text).
Proof.
  induction text as [|c text IH]; intros current Hcurrent; simpl.
  - constructor; [|constructor]. now rewrite forallb_rev.
  - destruct (isWordSeparator c) eqn:Hc.
    + constructor; [now rewrite forallb_rev | now apply IH].
    + apply IH. simpl. unfold notSeparator at 1. now rewrite Hc.
Qed.

Lemma concat_filter_nonEmpty (pieces : list jsstring) :
  List.concat (filter nonEmpty pieces) = List.concat pieces.
Proof.
  induction pieces as [|piece pieces IH]; simpl; [reflexivity|].
  destruct piece as [|c piece]; simpl; [exact IH|].
  now rewrite IH.
Qed.

Lemma tokenizeWords_concat (text : jsstring) :
  List.concat (tokenizeWords text) = filter notSeparator text.
Proof.
  unfold tokenizeWords.
  rewrite concat_filter_nonEmpty, splitWords_concat. reflexivity.
Qed.

Lemma tokenizeWords_nonEmpty (text : jsstring) (token : jsstring) :
  In token (tokenizeWords text) -> token <> [].
Proof.
  unfold tokenizeWords. intros Hin.
  apply filter_In in Hin as [_ Hne].
  destruct token; [discriminate Hne | discriminate].
Qed.

(** X1. The tokens of a text are never empty and hold no separator, and
    joined in their order they are the text with its separators taken
    out: [tokenizeWords] drops the separators and nothing else. *)
Theorem X1_tokens_are_the_text_without_separators (text : jsstring) :
  Forall (fun token => token <> [] /\ forallb notSeparator token = true)
    (tokenizeWords text)
  /\ List.concat (tokenizeWords text) = filter notSeparator text.
Proof.
  split; [|apply tokenizeWords_concat].
  apply Forall_forall. intros token Hin. split.
  - exact (tokenizeWords_nonEmpty text token Hin).
  - unfold tokenizeWords in Hin. apply filter_In in Hin as [Hin _].
    pose proof (splitWords_pieces text [] eq_refl) as Hall.
    rewrite Forall_forall in Hall. now apply Hall.
Qed.

Lemma splitWords_word (word : jsstring) :
  forallb notSeparator word = true ->
  forall current text,
    splitWords current (word ++ text) = splitWords (rev word ++ current) text.
Proof.
  induction word as [|c word IH]; intros Hword current text; [reflexivity|].
  simpl in Hword. apply andb_prop in Hword as [Hc Hword].
  unfold notSeparator in Hc. apply negb_true_iff in Hc.
  simpl. rewrite Hc, (IH Hword). now rewrite <- app_assoc.
Qed.

(** A word up to its first separator is the first token, and what follows
    the separator is tokenized on its own. *)
Lemma tokenizeWords_first_word (word rest : jsstring) (separator : N) :
  word <> [] ->
  forallb notSeparator word = true ->
  isWordSeparator separator = true ->
  tokenizeWords (word ++ separator :: rest) = word :: tokenizeWords rest.
Proof.
  intros Hne Hword Hsep. unfold tokenizeWords.
  rewrite (splitWords_word word Hword). simpl. rewrite Hsep.
  rewrite app_nil_r, rev_involutive. simpl.
  destruct word; [contradiction | reflexivity].
Qed.

Lemma tokenizeWords_single_word (word : jsstring) :
  word <> [] ->
  forallb notSeparator word = true ->
  tokenizeWords word = [word].
Proof.
  intros Hne Hword. unfold tokenizeWords.
  rewrite <- (app_nil_r word) at 1.
  rewrite (splitWords_word word Hword). simpl.
  rewrite app_nil_r, rev_involutive.
  destruct word; [contradiction | reflexivity].
Qed.

Lemma separators_have_no_token (text : jsstring) :
  forallb isWordSeparator text = true -> tokenizeWords text = [].
Proof.
  intros Hall.
  pose proof (tokenizeWords_concat text) as Hconcat.
  assert (Hfilter : filter notSeparator text = []).
  { clear Hconcat. induction text as [|c text IH]; [reflexivity|].
    simpl in *. apply andb_prop in Hall as [Hc Hall].
    unfold notSeparator at 1. rewrite Hc. simpl. auto. }
  rewrite Hfilter in Hconcat.
  destruct (tokenizeWords text) as [|token tokens] eqn:Htokens;
    [reflexivity|].
  exfalso.
  apply (tokenizeWords_nonEmpty text token); [rewrite Htokens; now left|].
  simpl in Hconcat. now apply app_eq_nil in Hconcat as [-> _].
Qed.

(** X2. A text made of separators only, the empty text among them, has no
    token, and only such a text has none. *)
Theorem X2_no_token_means_separators_only (text : jsstring) :
  tokenizeWords text = [] <-> forallb isWordSeparator text = true.
Proof.
  split; [|apply separators_have_no_token].
  pose proof (tokenizeWords_concat text) as Hconcat.
  intros Hnone. rewrite Hnone in Hconcat. simpl in Hconcat.
  clear Hnone. induction text as [|c text IH]; [reflexivity|].
  simpl in *. unfold notSeparator in Hconcat at 1.
  destruct (isWordSeparator c); simpl in *; [auto | discriminate].
Qed.

(** ** The casing of the first word *)

Lemma skipn_marker (marker text : jsstring) :
  List.length marker = 3 -> slice_from 3 (marker ++ text) = text.
Proof.
  intros Hlen. unfold slice_from.
  rewrite <- Hlen. rewrite skipn_app, skipn_all, Nat.sub_diag. reflexivity.
Qed.

(** X3. The casing check reads the first word only.  For a text node whose
    value is three code units, a word and a separator followed by anything,
    the verdict is the one for the word alone, and a failure is always the
    message about the casing, on the node itself. *)
Theorem X3_casing_check_reads_the_first_word_only
    (marker word rest : jsstring) (separator : N) (file : vfile) :
  List.length marker = 3 ->
  word <> [] ->
  forallb notSeparator word = true ->
  isWordSeparator separator = true ->
  validateListItemPrefixCasing (mkText (marker ++ word ++ separator :: rest)) file
  = if fst (validateListItemPrefixCasing (mkText (marker ++ word)) [])
    then (true, file)
    else (false,
          file ++ [Message casingReason
                     (Some (mkText (marker ++ word ++ separator :: rest)))]).
Proof.
  intros Hlen Hne Hword Hsep.
  unfold validateListItemPrefixCasing, file_message.
  change (valueOf (mkText (marker ++ word ++ separator :: rest)))
    with (marker ++ word ++ separator :: rest).
  change (valueOf (mkText (marker ++ word))) with (marker ++ word).
  rewrite !(skipn_marker marker _ Hlen).
  rewrite (tokenizeWords_first_word word rest separator Hne Hword Hsep).
  rewrite (tokenizeWords_single_word word Hne Hword).
  match goal with
  | |- context [if ?c then (false, _) else _] => destruct c
  end; reflexivity.
Qed.

Lemma tokenizeWords_leading_word (word tail : jsstring) :
  word <> [] ->
  forallb notSeparator word = true ->
  tail = [] \/ head_is isWordSeparator tail = true ->
  exists others, tokenizeWords (word ++ tail) = word :: others.
Proof.
  intros Hne Hword [->|Htail].
  - exists []. rewrite app_nil_r. now apply tokenizeWords_single_word.
  - destruct tail as [|separator rest]; [discriminate Htail|].
    exists (tokenizeWords rest). now apply tokenizeWords_first_word.
Qed.

Lemma opening_mark_of_a_token (word : jsstring) :
  forallb notSeparator word = true ->
  re_opening_mark word = head_is isQuoteOrParenthesis word.
Proof.
  unfold re_opening_mark. destruct word as [|c word]; [reflexivity|].
  cbn [forallb head_is]. intros Hword.
  apply andb_prop in Hword as [Hc _].
  unfold notSeparator, isWordSeparator in Hc. apply negb_true_iff in Hc.
  repeat (apply orb_false_elim in Hc as [Hc ?]).
  unfold isOpeningMark, isQuoteOrParenthesis.
  replace (c =? 39)%N with false by (symmetry; assumption).
  now rewrite orb_false_r.
Qed.

(** X4. A description whose first word holds a digit, starts with a
    straight double quote, a curly opening quote or an opening parenthesis,
    or is on the identifier allow-list, passes the casing check whatever
    the casing classifier makes of the word and whatever follows it.  The
    apostrophe of the pattern for opening marks never counts: it is a
    separator, so no first word starts with one and the pattern holds of a
    first word exactly when the word starts with one of the other three
    marks. *)
Theorem X4_digits_quotes_and_listed_words_need_no_casing
    (marker word tail : jsstring) (file : vfile) :
  List.length marker = 3 ->
  word <> [] ->
  forallb notSeparator word = true ->
  tail = [] \/ head_is isWordSeparator tail = true ->
  re_opening_mark word = head_is isQuoteOrParenthesis word
  /\ head_is (N.eqb 39) word = false
  /\ (re_has_digit word
      || head_is isQuoteOrParenthesis word
      || existsb (str_eqb word) identifierAllowList = true ->
      validateListItemPrefixCasing (mkText (marker ++ word ++ tail)) file
      = (true, file)).
Proof.
  intros Hlen Hne Hword Htail.
  pose proof (opening_mark_of_a_token word Hword) as Hmark.
  split; [exact Hmark|]. split.
  { destruct word as [|c word]; [reflexivity|].
    cbn [forallb head_is] in *. apply andb_prop in Hword as [Hc _].
    unfold notSeparator, isWordSeparator in Hc. apply negb_true_iff in Hc.
    repeat (apply orb_false_elim in Hc as [Hc ?]).
    rewrite N.eqb_sym. assumption. }
  intros Hexempt. rewrite <- Hmark in Hexempt.
  unfold validateListItemPrefixCasing.
  change (valueOf (mkText (marker ++ word ++ tail)))
    with (marker ++ word ++ tail).
  rewrite (skipn_marker marker _ Hlen).
  destruct (tokenizeWords_leading_word word tail Hne Hword Htail)
    as [others Htokens].
  rewrite Htokens.
  destruct (re_has_digit word);
    [now rewrite andb_false_r|].
  destruct (re_opening_mark word);
    [now rewrite andb_false_r|].
  simpl in Hexempt. rewrite Hexempt. now rewrite andb_false_r.
Qed.

(** X5. A text node with nothing but separators after its first three code
    units, the bare dash separator among them, has no first word: the
    casing check fails with the message about a non-empty string. *)
Theorem X5_no_first_word_is_reported
    (marker separators : jsstring) (file : vfile) :
  List.length marker = 3 ->
  forallb isWordSeparator separators = true ->
  validateListItemPrefixCasing (mkText (marker ++ separators)) file
  = (false,
     file ++ [Message "List item description must start with a non-empty string"
                (Some (mkText (marker ++ separators)))]).
Proof.
  intros Hlen Hseps.
  unfold validateListItemPrefixCasing, file_message.
  change (valueOf (mkText (marker ++ separators))) with (marker ++ separators).
  rewrite (skipn_marker marker _ Hlen).
  rewrite (separators_have_no_token _ Hseps). reflexivity.
Qed.

(** ** Texts that end with an emoji *)

(** Every match of a scan lies inside the text, is not empty, starts no
    earlier than the scan does, and is a match of the pattern at its
    place. *)
Lemma allMatches_bounds (matchLength : jsstring -> nat) (text : jsstring) :
  forall skip index i len,
    In (i, len) (allMatches matchLength skip index text) ->
    exists offset,
      i = index + offset
      /\ skip <= offset
      /\ 1 <= len
      /\ offset + len <= List.length text
      /\ len <= matchLength (skipn offset text).
Proof.
  induction text as [|c text IH]; intros skip index i len Hin;
    [contradiction|].
  cbn [allMatches] in Hin.
  destruct skip as [|k].
  - destruct (Nat.min (matchLength (c :: text)) (List.length (c :: text)))
      as [|k] eqn:Hmin.
    + destruct (IH _ _ _ _ Hin) as (o & -> & _ & Hlen & Hend & Hmatch).
      exists (S o). simpl. repeat split; try lia; exact Hmatch.
    + destruct Hin as [Heq|Hin].
      * injection Heq as <- <-. exists 0. simpl skipn.
        repeat split; try lia.
      * destruct (IH _ _ _ _ Hin) as (o & -> & _ & Hlen & Hend & Hmatch).
        exists (S o). simpl. repeat split; try lia; exact Hmatch.
  - destruct (IH _ _ _ _ Hin) as (o & -> & Hskip & Hlen & Hend & Hmatch).
    exists (S o). simpl. repeat split; try lia; exact Hmatch.
Qed.

(** X6. When [textEndsWithEmoji] says yes, the text is not empty and splits
    into what comes before and a final non-empty piece at whose head the
    emoji pattern matches, with a match that covers the whole piece. *)
Theorem X6_a_text_that_ends_with_an_emoji_has_one_at_its_end
    (text : jsstring) :
  textEndsWithEmoji text = true ->
  exists before emoji,
    text = before ++ emoji
    /\ emoji <> []
    /\ List.length emoji <= emojiLength emoji.
Proof.
  unfold textEndsWithEmoji. intros Hends.
  destruct (rev (allMatches emojiLength 0 0 text)) as [|[i len] others]
    eqn:Hrev; [discriminate|].
  apply Nat.leb_le in Hends.
  assert (Hin : In (i, len) (allMatches emojiLength 0 0 text)).
  { apply in_rev. rewrite Hrev. now left. }
  destruct (allMatches_bounds _ _ _ _ _ _ Hin)
    as (o & -> & _ & Hlen & Hend & Hmatch).
  simpl in *.
  exists (firstn o text), (skipn o text).
  assert (Hsize : List.length (skipn o text) = len)
    by (rewrite length_skipn; lia).
  repeat split.
  - symmetry. apply firstn_skipn.
  - intros Hnil. rewrite Hnil in Hsize. simpl in Hsize. lia.
  - lia.
Qed.

(** ** Special cases *)

Lemma parenthetical_shape (rest : jsstring -> bool) (body after : jsstring) :
  body <> [] ->
  forallb notCloseParen body = true ->
  parenthetical rest (openParen :: body ++ closeParen :: after) = rest after.
Proof.
  intros Hne Hbody. unfold parenthetical.
  assert (Htake : takeWhile notCloseParen (body ++ closeParen :: after) = body
                  /\ dropWhile notCloseParen (body ++ closeParen :: after)
                     = closeParen :: after).
  { clear Hne. induction body as [|c body IH]; [split; reflexivity|].
    simpl in Hbody. apply andb_prop in Hbody as [Hc Hbody].
    destruct (IH Hbody) as [Ht Hd]. simpl. rewrite Hc, Ht, Hd.
    split; reflexivity. }
  destruct Htake as [-> ->].
  destruct body; [contradiction | reflexivity].
Qed.

(** X7. A description whose text is a white-space code unit and one
    parenthetical, with at most white space after it, is accepted without
    a message, whatever nodes it is made of: no dash, no punctuation and no
    casing is asked of it. *)
Theorem X7_parenthetical_description_is_accepted
    (description : list node) (space : N) (body blanks : jsstring)
    (file : vfile) :
  description <> [] ->
  toStringAll description
  = space :: openParen :: body ++ closeParen :: blanks ->
  isWhiteSpace space = true ->
  body <> [] ->
  forallb notCloseParen body = true ->
  re_blank blanks = true ->
  validateListItemDescription description file = (Some true, file).
Proof.
  intros Hne Htext Hspace Hbody Hinside Hblanks.
  destruct description as [|dash others]; [contradiction|].
  unfold validateListItemDescription.
  assert (Hspecial :
    validateListItemSpecialCases (dash :: others)
      (toStringAll (dash :: others)) = true).
  { rewrite Htext. unfold validateListItemSpecialCases.
    change (lit " - ") with [32; 45; 32]%N.
    cbn [startsWith].
    change (45 =? openParen)%N with false.
    rewrite andb_false_r.
    assert (Hparen :
      re_spaced_parenthetical
        (space :: openParen :: body ++ closeParen :: blanks) = true).
    { unfold re_spaced_parenthetical. rewrite Hspace.
      rewrite (parenthetical_shape _ _ _ Hbody Hinside). exact Hblanks. }
    rewrite Hparen.
    destruct (negb (nonEmpty _)); reflexivity. }
  rewrite Hspecial. reflexivity.
Qed.

(** X8. A description whose text is white space only is accepted without a
    message. *)
Theorem X8_blank_description_is_accepted
    (description : list node) (file : vfile) :
  description <> [] ->
  re_blank (toStringAll description) = true ->
  validateListItemDescription description file = (Some true, file).
Proof.
  intros Hne Hblank.
  destruct description as [|dash others]; [contradiction|].
  unfold validateListItemDescription.
  rewrite (blank_is_special _ _ Hblank). reflexivity.
Qed.

(** ** The link candidate *)

Lemma skipCondition_linkLike (link : node) (description : list node) :
  skipCondition link description
  = notLinkLike link && (1 <? List.length description).
Proof.
  unfold skipCondition, notLinkLike, linkLike.
  now rewrite negb_orb.
Qed.

(** X9. What the filler-skipping loop does: it drops a run of leading
    nodes, none of them a link or a linkReference, and stops at the first
    node that is one, or else when a single node is left behind the
    candidate.  When the paragraph has two children or more, the
    description it leaves is never empty: the last child is never the link
    candidate. *)
Theorem X9_filler_loop_stops_at_the_first_link
    (first : node) (others : list node) :
  exists skipped,
    first :: others
    = skipped ++ fst (skipFiller first others) :: snd (skipFiller first others)
    /\ forallb notLinkLike skipped = true
    /\ (linkLike (fst (skipFiller first others)) = true
        \/ List.length (snd (skipFiller first others)) <= 1)
    /\ (others <> [] -> snd (skipFiller first others) <> []).
Proof.
  revert first. induction others as [|next rest IH]; intros first.
  - exists []. simpl. repeat split; auto.
  - cbn [skipFiller]. rewrite skipCondition_linkLike.
    destruct (notLinkLike first) eqn:Hfirst;
      destruct (1 <? List.length (next :: rest)) eqn:Hlen; cbn [andb].
    + destruct (IH next) as (skipped & Heq & Hskipped & Hstop & Hleft).
      exists (first :: skipped). cbn [app forallb].
      rewrite Hfirst, Hskipped.
      split; [now rewrite <- Heq|]. split; [reflexivity|].
      split; [exact Hstop|].
      intros _. apply Hleft.
      apply Nat.ltb_lt in Hlen. simpl in Hlen.
      destruct rest; [simpl in Hlen; lia | discriminate].
    + exists []. apply Nat.ltb_ge in Hlen.
      cbn [app forallb fst snd].
      split; [reflexivity|]. split; [reflexivity|].
      split; [right; exact Hlen | discriminate].
    + exists []. unfold notLinkLike in Hfirst.
      apply negb_false_iff in Hfirst. cbn [app forallb fst snd].
      repeat split; auto.
    + exists []. unfold notLinkLike in Hfirst.
      apply negb_false_iff in Hfirst. cbn [app forallb fst snd].
      repeat split; auto.
Qed.

Lemma last_default {A} (l : list A) (d d' : A) :
  l <> [] -> last l d = last l d'.
Proof.
  induction l as [|x l IH]; [contradiction|]. intros _.
  destruct l as [|y l]; [reflexivity|].
  cbn [last]. apply IH. discriminate.
Qed.

Lemma skipFiller_without_link (filler : list node) (lastChild : node) :
  forall first,
    forallb notLinkLike (first :: filler) = true ->
    skipFiller first (filler ++ [lastChild])
    = (last filler first, [lastChild]).
Proof.
  induction filler as [|next filler IH]; intros first Hnone.
  - simpl. rewrite skipCondition_linkLike. simpl.
    now rewrite andb_false_r.
  - cbn [forallb] in Hnone. apply andb_prop in Hnone as [Hfirst Hrest].
    cbn [app skipFiller]. rewrite skipCondition_linkLike, Hfirst.
    assert (Hlen : (1 <? List.length (next :: filler ++ [lastChild])) = true).
    { apply Nat.ltb_lt. simpl. rewrite length_app. simpl. lia. }
    rewrite Hlen. cbn [andb]. rewrite (IH next Hrest).
    f_equal. destruct filler as [|n filler]; [reflexivity|].
    change (last (next :: n :: filler) first) with (last (n :: filler) first).
    apply last_default. discriminate.
Qed.

Lemma not_linkLike_fails_link_check (link : node) (file : vfile) :
  notLinkLike link = true ->
  validateListItemLink link file
  = (false, file ++ [Message "Invalid list item link" (Some link)]).
Proof.
  unfold notLinkLike, linkLike. intros Hnot.
  apply negb_true_iff in Hnot. apply orb_false_elim in Hnot as [Href Hlink].
  unfold validateListItemLink, file_message. now rewrite Href, Hlink.
Qed.

(** X10. A link in last place is not found.  When no child of the
    paragraph but perhaps the last is a link or a linkReference, and the
    paragraph has at least two children and does not start with text, the
    entry is reported for an invalid list item link on its last child but
    one, whatever the last child is, a valid link included. *)
Theorem X10_a_link_in_last_place_is_not_found
    (listItem paragraph candidate lastChild : node)
    (siblings filler : list node) (file : vfile) :
  children listItem = paragraph :: siblings ->
  hasType "paragraph" paragraph = true ->
  children paragraph = filler ++ [candidate; lastChild] ->
  forallb notLinkLike (filler ++ [candidate]) = true ->
  hasType "text" (hd candidate filler) = false ->
  validateListItem listItem file
  = file ++ [Message "Invalid list item link" (Some candidate)].
Proof.
  intros Hitem Hpara Hkids Hnone Htext.
  unfold validateListItem. rewrite Hitem, Hpara, Hkids.
  assert (Hsplit : exists first others,
             filler ++ [candidate; lastChild]
             = first :: others ++ [lastChild]
             /\ first :: others = filler ++ [candidate]
             /\ hd candidate filler = first).
  { destruct filler as [|f filler].
    - exists candidate, []. auto.
    - exists f, (filler ++ [candidate]). simpl.
      rewrite <- app_assoc. auto. }
  destruct Hsplit as (first & others & -> & Heq & Hhd).
  rewrite Hhd in Htext. simpl. rewrite Htext.
  rewrite <- Heq in Hnone.
  rewrite (skipFiller_without_link others lastChild first Hnone).
  assert (Hcandidate : last others first = candidate).
  { assert (Hlast : last (first :: others) first = last others first)
      by (destruct others; reflexivity).
    rewrite <- Hlast, Heq. apply last_last. }
  rewrite Hcandidate.
  assert (Hnot : notLinkLike candidate = true).
  { rewrite Heq in Hnone. rewrite forallb_app in Hnone.
    apply andb_prop in Hnone as [_ Hc]. simpl in Hc.
    now rewrite andb_true_r in Hc. }
  rewrite (not_linkLike_fails_link_check candidate file Hnot). reflexivity.
Qed.

Lemma link_check_passes_linkLike (link : node) (file : vfile) :
  fst (validateListItemLink link file) = true ->
  linkLike link = true /\ validateListItemLink link file = (true, file).
Proof.
  unfold validateListItemLink, linkLike.
  destruct (hasType "linkReference" link); [auto|].
  destruct (hasType "link" link); simpl; [|discriminate].
  destruct (isUrl (url link)); simpl; [|discriminate].
  destruct (nonEmpty (toString link)); simpl; [auto | discriminate].
Qed.

Lemma linkLike_is_no_text (link : node) :
  linkLike link = true -> hasType "text" link = false.
Proof.
  unfold linkLike, hasType. intros H.
  apply orb_prop in H as [H|H]; apply String.eqb_eq in H; rewrite H;
    reflexivity.
Qed.

(** X11. For an entry whose paragraph starts with a link that passes the
    link check and has only emphasis, inlineCode and text children, the
    outcome is that of the description validator on the nodes after the
    link.  The description is optional: with nothing after the link the
    entry is accepted. *)
Theorem X11_after_a_valid_link_the_description_decides
    (listItem paragraph link : node) (siblings description : list node)
    (file : vfile) :
  children listItem = paragraph :: siblings ->
  hasType "paragraph" paragraph = true ->
  children paragraph = link :: description ->
  fst (validateListItemLink link file) = true ->
  forallb linkChildAllowed (children link) = true ->
  validateListItem listItem file
  = snd (validateListItemDescription description file)
  /\ (description = [] -> validateListItem listItem file = file).
Proof.
  intros Hitem Hpara Hkids Hlink Hallowed.
  apply link_check_passes_linkLike in Hlink as [Hlike Hlink].
  assert (Hmain :
    validateListItem listItem file
    = snd (validateListItemDescription description file)).
  { unfold validateListItem. rewrite Hitem, Hpara, Hkids. simpl.
    rewrite (linkLike_is_no_text link Hlike).
    assert (Hstay : skipFiller link description = (link, description)).
    { destruct description as [|d ds]; [reflexivity|].
      simpl. rewrite skipCondition_linkLike. unfold notLinkLike.
      now rewrite Hlike. }
    rewrite Hstay, Hlink. simpl.
    unfold validateListItemLinkChildren.
    apply find_none_forallb in Hallowed.
    unfold linkChildAllowed in Hallowed. rewrite Hallowed. reflexivity. }
  split; [exact Hmain|].
  intros ->. rewrite Hmain. reflexivity.
Qed.

(** ** What the description validator reports *)

Lemma firstn_In_list {A} (n : nat) (l : list A) (x : A) :
  In x (firstn n l) -> In x l.
Proof.
  intros Hin. rewrite <- (firstn_skipn n l). apply in_or_app. now left.
Qed.

Lemma nth_In_default {A} (n : nat) (l : list A) (d : A) :
  In d l -> In (nth n l d) l.
Proof.
  intros Hd. destruct (nth_in_or_default n l d) as [Hin| ->]; assumption.
Qed.

(** X12. Every message of the description validator carries one of seven
    reasons (the three about the separator, the one about punctuation, the
    one about invalid markdown and the two about the first word) and points
    at a node of the description. *)
Theorem X12_description_messages_point_into_the_description
    (description : list node) (file : vfile) (m : message) :
  In m (snd (validateListItemDescription description file)) ->
  In m file
  \/ (In (reason m) descriptionReasons
      /\ exists n, place m = Some n /\ In n description).
Proof.
  unfold validateListItemDescription, file_message.
  destruct description as [|dash others]; [simpl; auto|].
  set (description := dash :: others).
  assert (Hdash : In dash description) by now left.
  assert (Hsuffix : In (suffixWithoutBadge description dash) description)
    by (apply nth_In_default; exact Hdash).
  destruct (validateListItemSpecialCases _ _) eqn:Hspecial; [simpl; auto|].
  destruct (negb (hasType "text" dash) || _) eqn:Hprefix.
  { repeat match goal with
      | |- context [if ?c then _ else _] => destruct c
      end; simpl; intros Hin; apply in_app_or in Hin as [Hin|[<-|[]]];
      auto; right; (split; [simpl; tauto | exists dash; auto]). }
  unfold description in *. clear description.
  rewrite (badge_check_unreachable dash others Hspecial Hprefix).
  destruct (negb (has listItemDescriptionSuffixNodeAllowList _)).
  { simpl. intros Hin. apply in_app_or in Hin as [Hin|[<-|[]]]; auto.
    right. split; [simpl; tauto | eexists; split; [reflexivity | exact Hsuffix]]. }
  destruct (hasType "text" _ && negb _).
  { simpl. intros Hin. apply in_app_or in Hin as [Hin|[<-|[]]]; auto.
    right. split; [simpl; tauto | eexists; split; [reflexivity | exact Hsuffix]]. }
  destruct (lastNonBadgeIndex (dash :: others) =? 0)%Z.
  - destruct (validateListItemPrefixCasing_cases dash file)
      as [Hc | [Hc | Hc]]; rewrite Hc; simpl; auto;
      intros Hin; apply in_app_or in Hin as [Hin|[<-|[]]]; auto;
      right; (split; [simpl; tauto | exists dash; auto]).
  - destruct (List.find _ (beforeBadges (dash :: others))) as [n|] eqn:Hfind.
    + apply find_some in Hfind as [Hn _].
      apply firstn_In_list in Hn.
      simpl. intros Hin. apply in_app_or in Hin as [Hin|[<-|[]]]; auto.
      right. split; [simpl; tauto | exists n; auto].
    + change (js_gt (node_length dash) 3) with false. simpl. auto.
Qed.

(** ** More of the punctuation decision procedure *)

Lemma dropWhile_head_false (p : N -> bool) (text : jsstring) :
  head_is p text = false -> dropWhile p text = text.
Proof.
  destruct text as [|c text]; simpl; [reflexivity|].
  intros Hc. now rewrite Hc.
Qed.

(** X13. A text that ends in a run of terminal punctuation marks passes the
    punctuation check, provided the text is not one backticked span and the
    run does not follow a closing double quote (the case of C4). *)
Theorem X13_terminal_punctuation_passes
    (before marks suffixText : jsstring) :
  marks <> [] ->
  forallb isPunctuation marks = true ->
  lastIs isPunctuation before = false ->
  lastIs isClosingQuote before = false ->
  re_fully_backticked (before ++ marks) = false ->
  validateListItemSuffix (before ++ marks) suffixText = true.
Proof.
  unfold lastIs. intros Hne Hmarks Hrun Hquote Hticks.
  unfold validateListItemSuffix. rewrite Hticks.
  assert (Hrev : forallb isPunctuation (rev marks) = true)
    by (rewrite forallb_rev; exact Hmarks).
  assert (Hqtp : re_quote_then_punctuation (before ++ marks) = false).
  { unfold re_quote_then_punctuation. rewrite rev_app_distr.
    rewrite (dropWhile_app_all _ _ _ Hrev).
    rewrite (dropWhile_head_false _ _ Hrun), Hquote.
    apply andb_false_r. }
  assert (Hpmq : re_punctuation_maybe_quote (before ++ marks) = true).
  { unfold re_punctuation_maybe_quote. rewrite rev_app_distr.
    pose proof (rev_not_nil _ Hne) as Hnil.
    destruct (rev marks) as [|c others]; [contradiction|].
    simpl in Hrev. apply andb_prop in Hrev as [Hc _].
    simpl. now rewrite Hc. }
  rewrite Hqtp, Hpmq. reflexivity.
Qed.

Lemma punctuation_is_no_backtick (c : N) :
  isPunctuation c = true -> notBacktick c = true.
Proof.
  unfold isPunctuation. intros H.
  repeat (apply orb_prop in H as [H|H]); apply N.eqb_eq in H; subst;
    reflexivity.
Qed.

Lemma afterBacktick_none (text : jsstring) :
  forallb notBacktick text = true -> afterBacktick text = None.
Proof.
  induction text as [|c text IH]; simpl; [reflexivity|].
  intros H. apply andb_prop in H as [Hc Htext].
  unfold notBacktick in Hc. apply negb_true_iff in Hc.
  rewrite Hc. auto.
Qed.

Lemma afterBacktick_first (middle rest : jsstring) :
  forallb notBacktick middle = true ->
  afterBacktick (middle ++ backtick :: rest) = Some rest.
Proof.
  induction middle as [|c middle IH]; simpl; [reflexivity|].
  intros H. apply andb_prop in H as [Hc Hmiddle].
  unfold notBacktick in Hc. apply negb_true_iff in Hc.
  rewrite Hc. auto.
Qed.

Lemma forallb_impl {A} (p q : A -> bool) (l : list A) :
  (forall x, p x = true -> q x = true) ->
  forallb p l = true -> forallb q l = true.
Proof.
  intros Himpl. induction l as [|x l IH]; simpl; [reflexivity|].
  intros H. apply andb_prop in H as [Hx Hl].
  rewrite (Himpl x Hx). auto.
Qed.

(** X14. A text that is one backticked span, a backtick, a stretch without
    backtick and line terminator, a backtick, and nothing after it but
    terminal punctuation marks, fails the punctuation check. *)
Theorem X14_one_backticked_span_fails
    (middle marks suffixText : jsstring) :
  forallb notBacktick middle = true ->
  noLineTerminator middle = true ->
  forallb isPunctuation marks = true ->
  validateListItemSuffix (backtick :: middle ++ backtick :: marks) suffixText
  = false.
Proof.
  intros Hmiddle Hline Hmarks.
  assert (Hfull :
    re_fully_backticked (backtick :: middle ++ backtick :: marks) = true).
  { unfold re_fully_backticked. rewrite N.eqb_refl.
    rewrite rev_app_distr. simpl. rewrite <- app_assoc.
    rewrite dropWhile_app_all by (rewrite forallb_rev; exact Hmarks).
    simpl. unfold noLineTerminator in *. now rewrite forallb_rev. }
  assert (Hticks : forallb notBacktick marks = true)
    by (apply (forallb_impl isPunctuation); auto using punctuation_is_no_backtick).
  assert (Hseveral :
    re_several_backticks (backtick :: middle ++ backtick :: marks) = false).
  { unfold re_several_backticks.
    destruct middle as [|c middle].
    - simpl app. cbv beta iota. rewrite (afterBacktick_none marks Hticks).
      apply andb_false_r.
    - simpl in Hmiddle. apply andb_prop in Hmiddle as [_ Hmiddle].
      simpl app. cbv beta iota.
      rewrite (afterBacktick_first middle marks Hmiddle).
      destruct marks as [|p marks]; [apply andb_false_r|].
      simpl in Hticks. apply andb_prop in Hticks as [_ Hticks].
      cbv beta iota.
      rewrite (afterBacktick_none marks Hticks). apply andb_false_r. }
  unfold validateListItemSuffix. rewrite Hfull, Hseveral. reflexivity.
Qed.

(** ** Descriptions that start with the dash separator *)

Lemma startsWith_app (prefix text rest : jsstring) :
  startsWith prefix text = true -> startsWith prefix (text ++ rest) = true.
Proof.
  revert text. induction prefix as [|p prefix IH]; intros text;
    [reflexivity|].
  destruct text as [|c text]; simpl; [discriminate|].
  intros H. apply andb_prop in H as [Hc Hrest].
  now rewrite Hc, (IH text Hrest).
Qed.

(** A description whose first node is text that starts with the dash
    separator is no special case and passes the separator check. *)
Lemma dashed_description_passes_separator (dash : node) (others : list node) :
  hasType "text" dash = true ->
  startsWith (lit " - ") (toString dash) = true ->
  validateListItemSpecialCases (dash :: others) (toStringAll (dash :: others))
  = false
  /\ negb (hasType "text" dash)
     || negb (validateListItemPrefix (toStringAll (dash :: others))
                (toString dash)) = false.
Proof.
  intros Htext Hstart. split.
  - unfold validateListItemSpecialCases.
    change (toStringAll (dash :: others))
      with (toString dash ++ toStringAll others).
    now rewrite (startsWith_app _ _ _ Hstart).
  - unfold validateListItemPrefix. now rewrite Htext, Hstart.
Qed.

Lemma dashed_text_is_no_badge (dash : node) :
  hasType "text" dash = true ->
  startsWith (lit " - ") (toString dash) = true ->
  isBadge dash = false.
Proof.
  intros Htext Hstart. unfold isBadge.
  pose proof Htext as Htype. unfold hasType in Htype.
  apply String.eqb_eq in Htype.
  unfold hasType at 1. rewrite Htype. simpl. rewrite Htext. simpl.
  destruct (re_blank (toString dash)) eqn:Hblank; [|reflexivity].
  rewrite (blank_has_no_dash _ Hblank) in Hstart. discriminate.
Qed.

(** What is left of [validateListItemDescription] for a description that
    starts with the dash separator and ends in a run of badges after a
    last node that is no badge. *)
Lemma dashed_description_steps
    (dash lastNode : node) (init badges : list node) (file : vfile) :
  hd_error (init ++ [lastNode]) = Some dash ->
  hasType "text" dash = true ->
  startsWith (lit " - ") (toString dash) = true ->
  isBadge lastNode = false ->
  forallb isBadge badges = true ->
  validateListItemDescription ((init ++ [lastNode]) ++ badges) file
  = if negb (has listItemDescriptionSuffixNodeAllowList (type lastNode))
    then (Some false, file ++ [Message punctuationReason (Some lastNode)])
    else if hasType "text" lastNode
            && negb (validateListItemSuffix
                       (if nonEmptyList badges
                        then trimEnd (toStringAll (init ++ [lastNode]))
                        else toStringAll (init ++ [lastNode]))
                       (toString lastNode))
    then (Some false, file ++ [Message punctuationReason (Some lastNode)])
    else if (List.length init =? 0)%nat
    then (Some (fst (validateListItemPrefixCasing dash file)),
          snd (validateListItemPrefixCasing dash file))
    else match List.find
                 (fun n => negb (has listItemDescriptionNodeAllowList (type n)))
                 (init ++ [lastNode]) with
         | Some n =>
             (Some false,
              file ++ [Message "List item description contains invalid markdown"
                         (Some n)])
         | None => (Some true, file)
         end.
Proof.
  intros Hhd Htext Hstart Hlast Hbadges.
  destruct (beforeBadges_app init badges lastNode Hlast Hbadges)
    as (Hbefore & Hsuffix & Hhas).
  pose proof (lastNonBadgeIndex_app init badges lastNode Hlast Hbadges)
    as Hidx.
  assert (Hshape : exists others,
             (init ++ [lastNode]) ++ badges = dash :: others).
  { destruct init as [|d init]; simpl in Hhd; injection Hhd as ->;
      eexists; reflexivity. }
  destruct Hshape as [others Hshape].
  destruct (dashed_description_passes_separator dash others Htext Hstart)
    as [Hspecial Hprefix].
  unfold validateListItemDescription, file_message, lastSuffixText.
  rewrite Hshape. rewrite Hspecial, Hprefix. rewrite <- Hshape.
  rewrite Hidx, Hbefore, Hsuffix, Hhas.
  assert (Hneg : (Z.of_nat (List.length init) <? 0)%Z = false)
    by (apply Z.ltb_ge; lia).
  rewrite Hneg.
  assert (Hzero : (Z.of_nat (List.length init) =? 0)%Z
                  = (List.length init =? 0)%nat).
  { destruct init; reflexivity. }
  rewrite Hzero.
  change (js_gt (node_length dash) 3) with false.
  unfold punctuationReason.
  destruct (negb (has listItemDescriptionSuffixNodeAllowList (type lastNode)));
    [reflexivity|].
  destruct (hasType "text" lastNode && _); [reflexivity|].
  destruct (List.length init =? 0)%nat.
  - destruct (validateListItemPrefixCasing dash file) as [[|] file'];
      reflexivity.
  - destruct (List.find _ (init ++ [lastNode])); reflexivity.
Qed.

(** X15. A description that is one text node starting with the dash
    separator, followed by any run of badges: the punctuation check is run
    on its text, trimmed on the right when there are badges, and only when
    that passes is the casing of the first word checked, badges or not. *)
Theorem X15_plain_text_with_badges_checks_punctuation_then_casing
    (dash : node) (badges : list node) (file : vfile) :
  hasType "text" dash = true ->
  startsWith (lit " - ") (toString dash) = true ->
  forallb isBadge badges = true ->
  validateListItemDescription (dash :: badges) file
  = if validateListItemSuffix
         (if nonEmptyList badges then trimEnd (toString dash)
          else toString dash)
         (toString dash)
    then (Some (fst (validateListItemPrefixCasing dash file)),
          snd (validateListItemPrefixCasing dash file))
    else (Some false, file ++ [Message punctuationReason (Some dash)]).
Proof.
  intros Htext Hstart Hbadges.
  pose proof (dashed_text_is_no_badge dash Htext Hstart) as Hlast.
  pose proof (dashed_description_steps dash dash [] badges file
                eq_refl Htext Hstart Hlast Hbadges) as Hsteps.
  change (([] ++ [dash]) ++ badges) with (dash :: badges) in Hsteps.
  rewrite Hsteps. clear Hsteps.
  assert (Hallowed :
    has listItemDescriptionSuffixNodeAllowList (type dash) = true).
  { pose proof Htext as Htype. unfold hasType in Htype.
    apply String.eqb_eq in Htype. rewrite Htype. reflexivity. }
  rewrite Hallowed, Htext.
  change (toStringAll ([] ++ [dash])) with (toString dash ++ []).
  rewrite app_nil_r. cbn [negb andb List.length Nat.eqb].
  destruct (validateListItemSuffix _ (toString dash)); reflexivity.
Qed.

(** X16. The description must end, before its badges, in an emphasis,
    html, image, link, strong or text node.  A description that starts with
    the dash separator and whose last node before the badges is of another
    type (a linkReference, say) is reported for its punctuation on that
    node. *)
Theorem X16_last_node_of_another_type_is_reported
    (dash lastNode : node) (middle badges : list node) (file : vfile) :
  hasType "text" dash = true ->
  startsWith (lit " - ") (toString dash) = true ->
  isBadge lastNode = false ->
  forallb isBadge badges = true ->
  has listItemDescriptionSuffixNodeAllowList (type lastNode) = false ->
  validateListItemDescription (dash :: middle ++ lastNode :: badges) file
  = (Some false, file ++ [Message punctuationReason (Some lastNode)]).
Proof.
  intros Htext Hstart Hlast Hbadges Htype.
  pose proof (dashed_description_steps dash lastNode (dash :: middle) badges
                file eq_refl Htext Hstart Hlast Hbadges) as Hsteps.
  replace (((dash :: middle) ++ [lastNode]) ++ badges)
    with (dash :: middle ++ lastNode :: badges) in Hsteps
    by (simpl; now rewrite <- app_assoc).
  rewrite Hsteps, Htype. reflexivity.
Qed.

(** X17. When the last node before the badges is an emphasis, html, image,
    link or strong node, not text, no punctuation is asked for and no
    casing either: a description that starts with the dash separator is
    then accepted, unless a node before the badges is of a type outside
    the allow-list of the description, the first of which is reported as
    invalid markdown. *)
Theorem X17_markup_at_the_end_needs_no_punctuation
    (dash lastNode : node) (middle badges : list node) (file : vfile) :
  hasType "text" dash = true ->
  startsWith (lit " - ") (toString dash) = true ->
  isBadge lastNode = false ->
  forallb isBadge badges = true ->
  has listItemDescriptionSuffixNodeAllowList (type lastNode) = true ->
  hasType "text" lastNode = false ->
  validateListItemDescription (dash :: middle ++ lastNode :: badges) file
  = match List.find
            (fun n => negb (has listItemDescriptionNodeAllowList (type n)))
            middle with
    | Some n =>
        (Some false,
         file ++ [Message "List item description contains invalid markdown"
                    (Some n)])
    | None => (Some true, file)
    end.
Proof.
  intros Htext Hstart Hlast Hbadges Htype Hmarkup.
  pose proof (dashed_description_steps dash lastNode (dash :: middle) badges
                file eq_refl Htext Hstart Hlast Hbadges) as Hsteps.
  replace (((dash :: middle) ++ [lastNode]) ++ badges)
    with (dash :: middle ++ lastNode :: badges) in Hsteps
    by (simpl; now rewrite <- app_assoc).
  rewrite Hsteps, Htype, Hmarkup. clear Hsteps.
  cbn [negb andb app List.find List.length Nat.eqb].
  assert (Hdash : has listItemDescriptionNodeAllowList (type dash) = true).
  { pose proof Htext as Hty. unfold hasType in Hty.
    apply String.eqb_eq in Hty. rewrite Hty. reflexivity. }
  rewrite Hdash. cbn [negb].
  assert (HlastOk : has listItemDescriptionNodeAllowList (type lastNode) = true).
  { unfold has, listItemDescriptionSuffixNodeAllowList in Htype.
    unfold has, listItemDescriptionNodeAllowList.
    simpl in Htype |- *.
    repeat (apply orb_prop in Htype as [Htype|Htype];
            [rewrite Htype; now rewrite ?orb_true_r|]).
    discriminate Htype. }
  induction middle as [|n middle IH]; cbn [app List.find].
  - now rewrite HlastOk.
  - destruct (has listItemDescriptionNodeAllowList (type n)); cbn [negb];
      [exact IH | reflexivity].
Qed.

(** ** Which lists the rule validates *)

Lemma filter_walk_prefix (p : node -> bool) (index : nat)
    (walk : list (path * node)) :
  List.map snd
    (filter (fun pn => p (snd pn))
       (List.map (fun pn => (index :: fst pn, snd pn)) walk))
  = List.map snd (filter (fun pn => p (snd pn)) walk).
Proof.
  induction walk as [|[q n] walk IH]; simpl; [reflexivity|].
  destruct (p n); simpl; now rewrite IH.
Qed.

Lemma findAllLists_children (cs : list node) :
  forall index,
    List.map snd
      (filter (fun pn => hasType "list" (snd pn)) (walkChildren index cs))
    = flat_map findAllLists cs.
Proof.
  induction cs as [|c cs IH]; intros index; [reflexivity|].
  unfold walkChildren. cbn [indexed]. fold (walkChildren (S index) cs).
  rewrite filter_app, map_app, filter_walk_prefix, IH. reflexivity.
Qed.

Lemma extractSublists_from (lists : list node) :
  forall found,
    fold_left (fun allLists l => allLists ++ findAllLists l) lists found
    = found ++ flat_map findAllLists lists.
Proof.
  induction lists as [|l lists IH]; intros found; simpl.
  - now rewrite app_nil_r.
  - rewrite IH. now rewrite app_assoc.
Qed.

(** X18. The lists [findAllLists] finds in a tree are the tree itself when
    it is a list, then the lists found in its children, from left to right:
    lists nested in lists are found, each after the list that holds it.
    And [extractSublists] joins what [findAllLists] finds in each of its
    lists, in their order. *)
Theorem X18_lists_are_found_at_every_depth
    (tree : node) (lists : list node) :
  findAllLists tree
  = (if hasType "list" tree then [tree] else [])
    ++ flat_map findAllLists (children tree)
  /\ extractSublists lists = flat_map findAllLists lists.
Proof.
  split.
  - unfold findAllLists at 1. rewrite visitOrder_unfold.
    fold (walkChildren 0 (children tree)). cbn [filter snd].
    destruct (hasType "list" tree); cbn [List.map snd app];
      now rewrite findAllLists_children.
  - unfold extractSublists. now rewrite extractSublists_from.
Qed.

Lemma in_walkChildren (cs : list node) :
  forall index p n,
    In (p, n) (walkChildren index cs) ->
    exists c q, In c cs /\ In (q, n) (visitOrder c).
Proof.
  induction cs as [|c cs IH]; intros index p n Hin; [contradiction|].
  unfold walkChildren in Hin. cbn [indexed] in Hin.
  fold (walkChildren (S index) cs) in Hin.
  apply in_app_or in Hin as [Hin|Hin].
  - apply in_map_iff in Hin as ([q n'] & Heq & Hin).
    injection Heq as _ <-. exists c, q. split; [now left | exact Hin].
  - destruct (IH _ _ _ Hin) as (c' & q & Hc' & Hq).
    exists c', q. split; [now right | exact Hq].
Qed.

Lemma walkChildren_app (cs cs' : list node) :
  forall index,
    walkChildren index (cs ++ cs')
    = walkChildren index cs ++ walkChildren (index + List.length cs) cs'.
Proof.
  induction cs as [|c cs IH]; intros index.
  - simpl. now rewrite Nat.add_0_r.
  - unfold walkChildren. cbn [app indexed].
    fold (walkChildren (S index) (cs ++ cs')).
    fold (walkChildren (S index) cs).
    rewrite IH, <- app_assoc. simpl List.length.
    now rewrite Nat.add_succ_r.
Qed.

Lemma find_app_none {A} (p : A -> bool) (l l' : list A) :
  (forall x, In x l -> p x = false) ->
  List.find p (l ++ l') = List.find p l'.
Proof.
  induction l as [|x l IH]; intros Hnone; [reflexivity|].
  simpl. rewrite (Hnone x) by now left.
  apply IH. intros y Hy. apply Hnone. now right.
Qed.

(** X19. Without a Contents heading anywhere in the document, the rule
    validates every list of the document, nested lists included, in the
    order of the walk, and adds their messages to the file. *)
Theorem X19_without_contents_every_list_is_validated
    (ast : node) (file : vfile) :
  (forall p n, In (p, n) (visitOrder ast) -> isContentsHeading n = false) ->
  listItemRule ast file
  = Some (file ++ flat_map (fun list => validateList list [])
                    (findAllLists ast)).
Proof.
  intros Hnone. unfold listItemRule, find.
  assert (Hfind :
    List.find (fun pn => isContentsHeading (snd pn)) (visitOrder ast) = None).
  { destruct (List.find _ (visitOrder ast)) as [[p n]|] eqn:Hfound;
      [|reflexivity].
    apply find_some in Hfound as [Hin Hp]. simpl in Hp.
    now rewrite (Hnone p n Hin) in Hp. }
  rewrite Hfind. simpl. now rewrite validateLists_appends.
Qed.

Lemma numbered_app (l l' : list node) :
  forall start,
    numbered start (l ++ l')
    = numbered start l ++ numbered (start + List.length l) l'.
Proof.
  unfold numbered. induction l as [|x l IH]; intros start.
  - simpl. now rewrite Nat.add_0_r.
  - simpl. rewrite IH. now rewrite Nat.add_succ_r.
Qed.

Lemma numbered_length (l : list node) (start : nat) :
  List.length (numbered start l) = List.length l.
Proof.
  unfold numbered. rewrite length_combine, length_seq. lia.
Qed.

Lemma skipn_numbered (l l' : list node) :
  skipn (List.length l) (numbered 0 (l ++ l'))
  = numbered (List.length l) l'.
Proof.
  rewrite numbered_app. simpl.
  rewrite <- (numbered_length l 0) at 1.
  rewrite skipn_app, skipn_all, Nat.sub_diag. reflexivity.
Qed.

Lemma filter_numbered (test : node -> bool) (l : list node) :
  forall start,
    List.map snd (filter (fun ic => test (snd ic)) (numbered start l))
    = filter test l.
Proof.
  unfold numbered. induction l as [|x l IH]; intros start; [reflexivity|].
  simpl. destruct (test x); simpl; now rewrite IH.
Qed.

Lemma filter_numbered_none (test : node -> bool) (l : list node) :
  forallb (fun n => negb (test n)) l = true ->
  forall start, filter (fun ic => test (snd ic)) (numbered start l) = [].
Proof.
  unfold numbered. induction l as [|x l IH]; intros Hnone start;
    [reflexivity|].
  simpl in *. apply andb_prop in Hnone as [Hx Hl].
  apply negb_true_iff in Hx. rewrite Hx. auto.
Qed.

(** [findAllAfter] on the children that follow a given run of children. *)
Lemma findAllAfter_after (parent : node) (test : node -> bool)
    (front : list node) (child : node) (behind : list node) :
  children parent = front ++ child :: behind ->
  findAllAfter parent (List.length front) test
  = filter (fun ic => test (snd ic))
      (numbered (S (List.length front)) behind).
Proof.
  intros Hkids. unfold findAllAfter.
  fold (numbered 0 (children parent)). rewrite Hkids.
  replace (front ++ child :: behind) with ((front ++ [child]) ++ behind)
    by now rewrite <- app_assoc.
  replace (S (List.length front)) with (List.length (front ++ [child]))
    by (rewrite length_app; simpl; lia).
  now rewrite skipn_numbered.
Qed.

(** [find] on a root whose first Contents heading is one of its
    children. *)
Lemma find_contents_child (ast toc : node) (before behind : list node) :
  children ast = before ++ toc :: behind ->
  isContentsHeading ast = false ->
  (forall c, In c before -> find isContentsHeading c = None) ->
  isContentsHeading toc = true ->
  find isContentsHeading ast = Some [List.length before].
Proof.
  intros Hkids Hroot Hbefore Htoc. unfold find.
  rewrite visitOrder_unfold. fold (walkChildren 0 (children ast)).
  cbn [List.find snd]. rewrite Hroot, Hkids, walkChildren_app.
  rewrite find_app_none.
  - rewrite walkChildren_cons. cbn [List.find snd]. now rewrite Htoc.
  - intros [p n] Hin. simpl.
    destruct (in_walkChildren _ _ _ _ Hin) as (c & q & Hc & Hq).
    specialize (Hbefore c Hc). unfold find in Hbefore.
    destruct (List.find _ (visitOrder c)) eqn:Hfound; [discriminate|].
    exact (find_none _ _ Hfound (q, n) Hq).
Qed.

(** X20. With a Contents heading among the children of the root, the first
    one in the document, the rule validates the lists that stand among
    the children of the root after the next heading, and the lists nested
    in them, and nothing else: no list before the Contents heading, and no
    list between it and the next heading (the table of contents itself),
    is looked at. *)
Theorem X20_only_lists_after_the_heading_that_follows_contents
    (ast toc heading : node) (before between after : list node)
    (file : vfile) :
  children ast = before ++ toc :: between ++ heading :: after ->
  isContentsHeading ast = false ->
  (forall c, In c before -> find isContentsHeading c = None) ->
  isContentsHeading toc = true ->
  forallb (fun n => negb (hasType "heading" n)) between = true ->
  hasType "heading" heading = true ->
  listItemRule ast file
  = Some (validateLists
            (flat_map findAllLists (filter (hasType "list") after)) file).
Proof.
  intros Hkids Hroot Hbefore Htoc Hbetween Hheading.
  unfold listItemRule.
  rewrite (find_contents_child ast toc before _ Hkids Hroot Hbefore Htoc).
  cbn [indexOf].
  rewrite (findAllAfter_after ast _ before toc _ Hkids).
  rewrite numbered_app, filter_app.
  rewrite (filter_numbered_none _ _ Hbetween).
  unfold numbered at 1. cbn [List.length seq combine filter snd app].
  rewrite Hheading.
  assert (Hkids' :
    children ast = (before ++ toc :: between) ++ heading :: after)
    by (rewrite Hkids, <- app_assoc; reflexivity).
  replace (S (List.length before) + List.length between)
    with (List.length (before ++ toc :: between))
    by (rewrite length_app; simpl; lia).
  rewrite (findAllAfter_after ast _ _ heading _ Hkids').
  rewrite filter_numbered.
  unfold extractSublists. rewrite extractSublists_from. reflexivity.
Qed.

(** ** Entries without a paragraph *)

Lemma link_checks_reasons (link : node) (file : vfile) (m : message) :
  (In m (snd (validateListItemLink link file))
   \/ In m (snd (validateListItemLinkChildren link file))) ->
  In m file \/ reason m <> invalidItemReason.
Proof.
  unfold validateListItemLink, validateListItemLinkChildren, file_message.
  intros [Hin|Hin]; revert Hin;
    repeat match goal with
      | |- context [if ?c then _ else _] => destruct c
      | |- context [match List.find ?f ?l with _ => _ end] =>
          destruct (List.find f l)
      end; simpl; intros Hin; auto;
    apply in_app_or in Hin as [Hin|[<-|[]]]; auto; right; discriminate.
Qed.

Lemma description_reasons (description : list node) (file : vfile)
    (m : message) :
  In m (snd (validateListItemDescription description file)) ->
  In m file \/ reason m <> invalidItemReason.
Proof.
  unfold validateListItemDescription, file_message.
  destruct description as [|dash others]; [simpl; auto|].
  destruct (validateListItemPrefixCasing_cases dash file)
    as [Hc | [Hc | Hc]]; rewrite Hc;
    repeat match goal with
      | |- context [if ?c then _ else _] => destruct c
      | |- context [match List.find ?f ?l with _ => _ end] =>
          destruct (List.find f l)
      end; simpl; intros Hin; auto;
    apply in_app_or in Hin as [Hin|[<-|[]]]; auto; right; discriminate.
Qed.

(** X21. An entry is reported as an invalid list item exactly when it has
    no children, its first child is no paragraph, or that paragraph has no
    children; the message is then the only one, placed on the first child.
    An entry that starts with a paragraph that has children is never
    reported under that reason. *)
Theorem X21_invalid_list_item_means_no_paragraph
    (listItem : node) (file : vfile) :
  if startsWithParagraph listItem
  then forall m,
         In m (validateListItem listItem file) ->
         In m file \/ reason m <> invalidItemReason
  else validateListItem listItem file
       = file ++ [Message invalidItemReason (hd_error (children listItem))].
Proof.
  unfold startsWithParagraph, validateListItem, file_message.
  destruct (children listItem) as [|paragraph siblings]; [reflexivity|].
  destruct (hasType "paragraph" paragraph); [|reflexivity].
  destruct (children paragraph) as [|first others]; [reflexivity|].
  cbn [nonEmptyList andb negb orb List.length Nat.eqb].
  intros m.
  destruct (hasType "text" first); [auto|].
  destruct (skipFiller first others) as [link description].
  destruct (validateListItemLink_reports link) as [Hlink | [m1 Hlink]].
  2:{ pose proof (link_checks_reasons link file m) as Hreason.
      rewrite Hlink in *. simpl in *. auto. }
  destruct (validateListItemLinkChildren_reports link) as [Hkids | [m2 Hkids]].
  2:{ pose proof (link_checks_reasons link file m) as Hreason.
      rewrite Hlink. simpl. rewrite Hkids in *. simpl in *. auto. }
  rewrite Hlink. simpl. rewrite Hkids. simpl.
  apply description_reasons.
Qed.

(** ** The Contents heading and HTML comments *)

Lemma afterCommentClose_body (body rest : jsstring) :
  noLineTerminator body = true ->
  forallb notGreaterThan body = true ->
  afterCommentClose (body ++ lit "-->" ++ rest) = Some rest.
Proof.
  change (lit "-->") with [45; 45; 62]%N.
  induction body as [|c body IH]; intros Hline Hgt; [reflexivity|].
  cbn [noLineTerminator forallb] in Hline, Hgt.
  apply andb_prop in Hline as [Hc Hline].
  apply andb_prop in Hgt as [_ Hgt].
  apply negb_true_iff in Hc.
  specialize (IH Hline Hgt).
  cbn [app afterCommentClose].
  assert (Hno : startsWith (lit "-->")
                  (c :: body ++ (45 :: 45 :: 62 :: rest)%N)
                = false).
  { change (lit "-->") with [45; 45; 62]%N.
    destruct body as [|b [|b' body]]; cbn [app startsWith].
    - change (62 =? 45)%N with false. now rewrite !andb_false_r.
    - change (62 =? 45)%N with false. now rewrite !andb_false_r.
    - cbn [forallb] in Hgt. apply andb_prop in Hgt as [_ Hgt].
      apply andb_prop in Hgt as [Hb' _].
      unfold notGreaterThan in Hb'. apply negb_true_iff in Hb'.
      rewrite N.eqb_sym in Hb'. rewrite Hb'. now rewrite !andb_false_r. }
  rewrite Hno, Hc. exact IH.
Qed.

Lemma removeMatches_skip (matchLength : jsstring -> nat)
    (dropped rest : jsstring) :
  removeMatches matchLength (List.length dropped) (dropped ++ rest)
  = removeMatches matchLength 0 rest.
Proof.
  induction dropped as [|c dropped IH]; [reflexivity|].
  simpl. exact IH.
Qed.

Lemma removeHtmlComments_plain (plain rest : jsstring) :
  forallb notLessThan plain = true ->
  removeHtmlComments (plain ++ rest) = plain ++ removeHtmlComments rest.
Proof.
  unfold removeHtmlComments.
  induction plain as [|c plain IH]; intros Hplain; [reflexivity|].
  cbn [forallb] in Hplain. apply andb_prop in Hplain as [Hc Hplain].
  cbn [app removeMatches].
  assert (Hnone : commentLength (c :: plain ++ rest) = 0).
  { unfold commentLength. change (lit "<!--") with [60; 33; 45; 45]%N.
    cbn [startsWith]. unfold notLessThan in Hc.
    apply negb_true_iff in Hc. rewrite N.eqb_sym in Hc. now rewrite Hc. }
  rewrite Hnone. now rewrite (IH Hplain).
Qed.

Lemma removeHtmlComments_comment (body rest : jsstring) :
  noLineTerminator body = true ->
  forallb notGreaterThan body = true ->
  removeHtmlComments (lit "<!--" ++ body ++ lit "-->" ++ rest)
  = removeHtmlComments rest.
Proof.
  intros Hline Hgt. unfold removeHtmlComments.
  set (comment := lit "<!--" ++ body ++ lit "-->").
  assert (Htext : lit "<!--" ++ body ++ lit "-->" ++ rest = comment ++ rest).
  { unfold comment. now rewrite <- !app_assoc. }
  assert (Hlen : commentLength (comment ++ rest) = List.length comment).
  { rewrite <- Htext. unfold commentLength.
    change (startsWith (lit "<!--") (lit "<!--" ++ body ++ lit "-->" ++ rest))
      with true.
    change (skipn 4 (lit "<!--" ++ body ++ lit "-->" ++ rest))
      with (body ++ lit "-->" ++ rest).
    rewrite (afterCommentClose_body body rest Hline Hgt).
    rewrite Htext, length_app. lia. }
  rewrite Htext.
  assert (Hcons : exists c tail, comment = c :: tail).
  { unfold comment. eexists. eexists. reflexivity. }
  destruct Hcons as (c & tail & Hcomment).
  rewrite Hcomment in *. cbn [app removeMatches].
  cbn [app] in Hlen. rewrite Hlen. cbn [List.length].
  apply removeMatches_skip.
Qed.

Lemma dropWhile_blank_then (blanks text : jsstring) :
  re_blank blanks = true ->
  dropWhile isWhiteSpace (blanks ++ text) = dropWhile isWhiteSpace text.
Proof. apply dropWhile_app_all. Qed.

Lemma trim_around (before core after : jsstring) :
  re_blank before = true ->
  re_blank after = true ->
  head_is isWhiteSpace core = false ->
  lastIs isWhiteSpace core = false ->
  trim (before ++ core ++ after) = core.
Proof.
  unfold trim, trimEnd, lastIs, re_blank. intros Hbefore Hafter Hhead Hlast.
  rewrite !rev_app_distr, <- app_assoc.
  rewrite dropWhile_app_all by (rewrite forallb_rev; exact Hafter).
  destruct (rev core) as [|c others] eqn:Hrev.
  - assert (core = []) as ->.
    { rewrite <- (rev_involutive core), Hrev. reflexivity. }
    simpl.
    rewrite (dropWhile_all isWhiteSpace (rev before))
      by (rewrite forallb_rev; exact Hbefore).
    reflexivity.
  - simpl in Hlast. cbn [app dropWhile]. rewrite Hlast.
    change (c :: others ++ rev before) with ((c :: others) ++ rev before).
    rewrite <- Hrev, <- rev_app_distr, rev_involutive.
    rewrite dropWhile_app_all by exact Hbefore.
    now apply dropWhile_head_false.
Qed.

(** X22. A heading of depth 2 whose text is the word Contents, with white
    space around it and an HTML comment on the same line after it, is the
    Contents heading of the rule: the comment is taken out and what is left
    is trimmed before the comparison. *)
Theorem X22_contents_heading_may_carry_a_comment
    (heading : node) (indent gap body tail : jsstring) :
  hasType "heading" heading = true ->
  depth heading = Some 2%N ->
  toString heading
  = indent ++ lit "Contents" ++ gap ++ lit "<!--" ++ body ++ lit "-->" ++ tail ->
  re_blank indent = true ->
  re_blank gap = true ->
  re_blank tail = true ->
  noLineTerminator body = true ->
  forallb notGreaterThan body = true ->
  isContentsHeading heading = true.
Proof.
  intros Htype Hdepth Htext Hindent Hgap Htail Hline Hgt.
  unfold isContentsHeading. rewrite Htype, Hdepth, Htext.
  assert (Hplain : forall blanks, re_blank blanks = true ->
                     forallb notLessThan blanks = true).
  { intros blanks. apply forallb_impl. intros c Hc.
    unfold notLessThan. destruct (N.eqb_spec c 60) as [->|_];
      [discriminate Hc | reflexivity]. }
  rewrite (removeHtmlComments_plain indent _ (Hplain _ Hindent)).
  rewrite (removeHtmlComments_plain (lit "Contents") _ eq_refl).
  rewrite (removeHtmlComments_plain gap _ (Hplain _ Hgap)).
  rewrite (removeHtmlComments_comment body tail Hline Hgt).
  rewrite <- (app_nil_r tail) at 1.
  rewrite (removeHtmlComments_plain tail [] (Hplain _ Htail)).
  change (removeHtmlComments []) with (@nil N). rewrite app_nil_r.
  assert (Hblank : re_blank (gap ++ tail) = true).
  { unfold re_blank in *. rewrite forallb_app. now rewrite Hgap, Htail. }
  replace (indent ++ lit "Contents" ++ gap ++ tail)
    with (indent ++ lit "Contents" ++ (gap ++ tail)) by reflexivity.
  rewrite (trim_around indent (lit "Contents") (gap ++ tail) Hindent Hblank
             eq_refl eq_refl).
  reflexivity.
Qed.

End FurtherProperties.

(* ================================================================== *)
(** * The statements at sample entries *)

(** C1 at a single badge: the description made of the inlineCode node
    [Beta] alone fails, and the message is the one about the missing dash
    separator, not the one about badges. *)
Lemma C1_single_badge_misses_its_dash :
  forallb isBadge [Sample.betaBadge] = true
  /\ @validateListItemDescription Sample.collaborators [Sample.betaBadge] []
     = (Some false,
        [Message "List item link and description must be separated with a dash"
           (Some Sample.betaBadge)])
  /\ ~ (forall (collaborators : Collaborators) description file,
          description <> [] ->
          forallb isBadge description = true ->
          exists n,
            validateListItemDescription description file
            = (Some false, file ++ [Message onlyBadgesReason n])).
Proof.
  split; [reflexivity|]. split; [vm_compute; reflexivity|].
  intros Hclaim.
  destruct (Hclaim Sample.collaborators [Sample.betaBadge] [])
    as [n Hn]; [discriminate | reflexivity |].
  vm_compute in Hn. discriminate Hn.
Qed.

Lemma C1_single_badge_witness :
  [Sample.betaBadge] <> []
  /\ forallb isBadge [Sample.betaBadge] = true
  /\ ((@validateListItemSpecialCases Sample.collaborators [Sample.betaBadge]
         (toStringAll [Sample.betaBadge]) = true
       /\ @validateListItemDescription Sample.collaborators
            [Sample.betaBadge] [] = (Some true, []))
      \/ (exists r dash,
            hd_error [Sample.betaBadge] = Some dash
            /\ In r separatorReasons
            /\ @validateListItemDescription Sample.collaborators
                 [Sample.betaBadge] []
               = (Some false, [] ++ [Message r (Some dash)]))).
Proof.
  split; [discriminate|]. split; [reflexivity|].
  apply (@C1_badges_alone_fail_the_separator_check Sample.collaborators
           [Sample.betaBadge] []); [discriminate | reflexivity].
Defined.

(** C3 at a linkReference around strong text: [validateListItemLink]
    accepts it, the guard on the children reports an invalid list item link,
    and so does the validation of the entry made of this link alone. *)
Lemma C3_reference_with_strong_child_is_reported :
  hasType "linkReference" Sample.strongReference = true
  /\ @validateListItem Sample.collaborators
       (Sample.entry [Sample.strongReference]) []
     = [Message "Invalid list item link" (Some Sample.strongChild)]
  /\ ~ (forall (collaborators : Collaborators) link file,
          hasType "linkReference" link = true ->
          validateListItemLink link file = (true, file)
          /\ validateListItemLinkChildren link file = (true, file)).
Proof.
  split; [reflexivity|]. split; [vm_compute; reflexivity|].
  intros Hclaim.
  destruct (Hclaim Sample.collaborators Sample.strongReference [] eq_refl)
    as [_ Hchildren].
  vm_compute in Hchildren. discriminate Hchildren.
Qed.

Lemma C3_reference_witness :
  hasType "linkReference" Sample.strongReference = true
  /\ @validateListItemLink Sample.collaborators Sample.strongReference []
     = (true, [])
  /\ (validateListItemLinkChildren Sample.strongReference [] = (true, [])
      <-> forallb linkChildAllowed (children Sample.strongReference) = true)
  /\ (forall child,
        List.find (fun n => negb (linkChildAllowed n))
          (children Sample.strongReference) = Some child ->
        validateListItemLinkChildren Sample.strongReference []
        = (false, [] ++ [Message "Invalid list item link" (Some child)])).
Proof.
  split; [reflexivity|].
  apply (@C3_link_reference_passes_up_to_child_guard Sample.collaborators
           Sample.strongReference []).
  reflexivity.
Defined.

(** C4 at a text ending in two full stops and a straight double quote: the
    second mark before the quote does not make the check fail. *)
Lemma C4_two_marks_before_the_quote_pass :
  @validateListItemSuffix Sample.collaborators
    (lit "A.." ++ [Sample.straightQuote]) [] = true
  /\ ~ (forall (collaborators : Collaborators) before mark quote suffixText,
          isPunctuation mark = true ->
          isClosingQuote quote = true ->
          re_fully_backticked (before ++ [mark; quote]) = false ->
          validateListItemSuffix (before ++ [mark; quote]) suffixText
          = negb (lastIs isPunctuation before)).
Proof.
  split; [vm_compute; reflexivity|].
  intros Hclaim.
  specialize (Hclaim Sample.collaborators (lit "A.") 46%N
                Sample.straightQuote [] eq_refl eq_refl eq_refl).
  vm_compute in Hclaim. discriminate Hclaim.
Qed.

Lemma C4_quote_witness :
  isClosingQuote Sample.straightQuote = true
  /\ (forall mark,
        isPunctuation mark = true ->
        re_fully_backticked (lit "A." ++ [mark; Sample.straightQuote]) = false ->
        @validateListItemSuffix Sample.collaborators
          (lit "A." ++ [mark; Sample.straightQuote]) [] = true)
  /\ (forall marks,
        marks <> [] ->
        forallb isPunctuation marks = true ->
        re_fully_backticked (lit "A." ++ Sample.straightQuote :: marks) = false ->
        @validateListItemSuffix Sample.collaborators
          (lit "A." ++ Sample.straightQuote :: marks) []
        = negb (lastIs isPunctuation (lit "A."))).
Proof.
  split; [reflexivity|].
  apply (@C4_punctuation_around_a_closing_quote Sample.collaborators
           (lit "A.") [] Sample.straightQuote).
  reflexivity.
Defined.

(** C5 at [ - Status: Beta. ] with a space at its end: followed by the badge
    [Beta] it passes the punctuation check and the whole validation; alone
    it fails both. *)
Lemma C5_badge_changes_the_verdict :
  @punctuationCheck Sample.collaborators [Sample.statusText; Sample.betaBadge]
  = true
  /\ @punctuationCheck Sample.collaborators [Sample.statusText] = false
  /\ @validateListItemDescription Sample.collaborators
       [Sample.statusText; Sample.betaBadge] [] = (Some true, [])
  /\ @validateListItemDescription Sample.collaborators [Sample.statusText] []
     = (Some false,
        [Message "List item description must end with proper punctuation"
           (Some Sample.statusText)])
  /\ ~ (forall (collaborators : Collaborators) init lastNode badges,
          isBadge lastNode = false ->
          forallb isBadge badges = true ->
          badges <> [] ->
          punctuationCheck ((init ++ [lastNode]) ++ badges)
          = punctuationCheck (init ++ [lastNode])).
Proof.
  repeat (split; [vm_compute; reflexivity|]).
  intros Hclaim.
  specialize (Hclaim Sample.collaborators [] Sample.statusText
                [Sample.betaBadge] eq_refl eq_refl).
  assert (Hne : [Sample.betaBadge] <> []) by discriminate.
  specialize (Hclaim Hne).
  vm_compute in Hclaim. discriminate Hclaim.
Qed.

Lemma C5_badges_witness :
  isBadge Sample.statusText = false
  /\ forallb isBadge [Sample.betaBadge] = true
  /\ [Sample.betaBadge] <> []
  /\ (@punctuationCheck Sample.collaborators
        (([] ++ [Sample.statusText]) ++ [Sample.betaBadge])
      = @validateListItemSuffix Sample.collaborators
          (trimEnd (toStringAll ([] ++ [Sample.statusText])))
          (toString Sample.statusText)
      /\ @punctuationCheck Sample.collaborators ([] ++ [Sample.statusText])
         = @validateListItemSuffix Sample.collaborators
             (toStringAll ([] ++ [Sample.statusText]))
             (toString Sample.statusText)
      /\ (trimEnd (toStringAll ([] ++ [Sample.statusText]))
          = toStringAll ([] ++ [Sample.statusText]) ->
          @punctuationCheck Sample.collaborators
            (([] ++ [Sample.statusText]) ++ [Sample.betaBadge])
          = @punctuationCheck Sample.collaborators ([] ++ [Sample.statusText]))).
Proof.
  split; [reflexivity|]. split; [reflexivity|]. split; [discriminate|].
  apply (@C5_badges_trim_the_text_before_them Sample.collaborators
           [] [Sample.betaBadge] Sample.statusText);
    [reflexivity | reflexivity | discriminate].
Defined.

(** C6 at an entry with two checks that fail: the linkReference has a
    strong child and the description has no dash separator.  Only the
    first failure, that of the children of the link, is reported. *)
Lemma C6_first_of_two_failures_witness :
  reported (validateListItemLinkChildren Sample.strongReference)
  = Some (Message "Invalid list item link" (Some Sample.strongChild))
  /\ firstFailure (@descriptionChecks Sample.collaborators
                     [Sample.undashedText])
     = Some (Message
               "List item link and description must be separated with a dash"
               (Some Sample.undashedText))
  /\ @validateListItem Sample.collaborators
       (Sample.entry [Sample.strongReference; Sample.undashedText]) []
     = [Message "Invalid list item link" (Some Sample.strongChild)].
Proof.
  split; [reflexivity|]. split; [vm_compute; reflexivity|].
  destruct (@C6_at_most_one_diagnostic_per_entry Sample.collaborators [] [])
    as (_ & _ & _ & _ & Hentry & _).
  rewrite Hentry. vm_compute. reflexivity.
Defined.

(** C7 at an entry that starts with text: accepted, although what follows
    the text is a link no entry could have. *)
Lemma C7_text_led_witness :
  children (Sample.entry [mkText (lit "Tools"); Sample.strongReference])
  = [mkParagraph [mkText (lit "Tools"); Sample.strongReference]]
  /\ hasType "paragraph"
       (mkParagraph [mkText (lit "Tools"); Sample.strongReference]) = true
  /\ children (mkParagraph [mkText (lit "Tools"); Sample.strongReference])
     = [mkText (lit "Tools"); Sample.strongReference]
  /\ hasType "text" (mkText (lit "Tools")) = true
  /\ @validateListItem Sample.collaborators
       (Sample.entry [mkText (lit "Tools"); Sample.strongReference]) [] = [].
Proof.
  repeat (split; [reflexivity|]).
  apply (@C7_text_led_entry_is_accepted Sample.collaborators
           (Sample.entry [mkText (lit "Tools"); Sample.strongReference])
           (mkParagraph [mkText (lit "Tools"); Sample.strongReference])
           (mkText (lit "Tools")) [] [Sample.strongReference] []);
    reflexivity.
Defined.



(** C10 at a document with two Contents headings and a malformed list
    behind them: the second heading has no heading after it, yet the list is
    validated, from the first heading on.  And at a document whose Contents
    heading is inside a block quote the rule does not return at all. *)
Lemma C10_second_contents_heading_does_not_stop_the_rule :
  In ([1], Sample.contentsHeading) (visitOrder Sample.twoContents)
  /\ isContentsHeading Sample.contentsHeading = true
  /\ noHeadingAfter Sample.twoContents [1] = true
  /\ @listItemRule Sample.collaborators Sample.twoContents []
     = Some [Message "Invalid list item" None]
  /\ @listItemRule Sample.collaborators Sample.quotedContents [] = None
  /\ ~ (forall (collaborators : Collaborators) ast file p toc,
          In (p, toc) (visitOrder ast) ->
          isContentsHeading toc = true ->
          noHeadingAfter ast p = true ->
          listItemRule ast file = Some file).
Proof.
  split; [vm_compute; tauto|].
  repeat (split; [vm_compute; reflexivity|]).
  intros Hclaim.
  assert (Hin : In ([1], Sample.contentsHeading)
                  (visitOrder Sample.twoContents))
    by (vm_compute; tauto).
  specialize (Hclaim Sample.collaborators Sample.twoContents []
                [1] Sample.contentsHeading Hin eq_refl eq_refl).
  vm_compute in Hclaim. discriminate Hclaim.
Qed.

Lemma C10_contents_witness :
  find isContentsHeading Sample.contentsThenList = Some [0]
  /\ noHeadingAfter Sample.contentsThenList [0] = true
  /\ @listItemRule Sample.collaborators Sample.contentsThenList []
     = Some [].
Proof.
  split; [reflexivity|]. split; [reflexivity|].
  apply (@C10_contents_without_later_heading_validates_nothing
           Sample.collaborators Sample.contentsThenList [] 0); reflexivity.
Defined.

(* ================================================================== *)
(** * The further properties at sample entries *)

Lemma X3_first_word_witness :
  List.length (lit " - ") = 3
  /\ lit "done" <> []
  /\ forallb notSeparator (lit "done") = true
  /\ isWordSeparator 32 = true
  /\ @validateListItemPrefixCasing Sample.collaborators
       (mkText (lit " - " ++ lit "done" ++ 32%N :: lit "WELL.")) []
     = (false,
        [Message casingReason
           (Some (mkText (lit " - " ++ lit "done" ++ 32%N :: lit "WELL.")))]).
Proof.
  split; [reflexivity|]. split; [discriminate|].
  split; [reflexivity|]. split; [reflexivity|].
  exact (@X3_casing_check_reads_the_first_word_only Sample.collaborators
           (lit " - ") (lit "done") (lit "WELL.") 32%N []
           eq_refl ltac:(discriminate) eq_refl eq_refl).
Defined.

Lemma X4_digit_witness :
  List.length (lit " - ") = 3
  /\ lit "3d" <> []
  /\ forallb notSeparator (lit "3d") = true
  /\ head_is isWordSeparator (lit " tools.") = true
  /\ re_has_digit (lit "3d") = true
  /\ @caseOf Sample.collaborators (lit "3d") = None
  /\ re_opening_mark (lit "3d") = head_is isQuoteOrParenthesis (lit "3d")
  /\ head_is (N.eqb 39) (lit "3d") = false
  /\ @validateListItemPrefixCasing Sample.collaborators
       (mkText (lit " - " ++ lit "3d" ++ lit " tools.")) [] = (true, []).
Proof.
  split; [reflexivity|]. split; [discriminate|].
  split; [reflexivity|]. split; [reflexivity|].
  split; [reflexivity|]. split; [reflexivity|].
  destruct (@X4_digits_quotes_and_listed_words_need_no_casing
              Sample.collaborators (lit " - ") (lit "3d") (lit " tools.") []
              eq_refl ltac:(discriminate) eq_refl (or_intror eq_refl))
    as (Hmark & Hapostrophe & Haccepted).
  split; [exact Hmark|]. split; [exact Hapostrophe|].
  apply Haccepted. reflexivity.
Defined.

Lemma X5_bare_dash_witness :
  List.length (lit " - ") = 3
  /\ forallb isWordSeparator (lit ".") = true
  /\ @validateListItemPrefixCasing Sample.collaborators
       (mkText (lit " - " ++ lit ".")) []
     = (false,
        [] ++ [Message "List item description must start with a non-empty string"
                 (Some (mkText (lit " - " ++ lit ".")))]).
Proof.
  split; [reflexivity|]. split; [reflexivity|].
  apply (@X5_no_first_word_is_reported Sample.collaborators
           (lit " - ") (lit ".") []); reflexivity.
Defined.

Lemma X6_check_mark_witness :
  @textEndsWithEmoji Sample.collaborators (lit "ok " ++ [Sample.checkMark])
  = true
  /\ exists before emoji,
       lit "ok " ++ [Sample.checkMark] = before ++ emoji
       /\ emoji <> []
       /\ List.length emoji <= @emojiLength Sample.collaborators emoji.
Proof.
  split; [reflexivity|].
  apply (@X6_a_text_that_ends_with_an_emoji_has_one_at_its_end
           Sample.collaborators (lit "ok " ++ [Sample.checkMark])).
  reflexivity.
Defined.

Lemma X7_parenthetical_witness :
  [mkText (lit " (archived) ")] <> []
  /\ toStringAll [mkText (lit " (archived) ")]
     = 32%N :: openParen :: lit "archived" ++ closeParen :: lit " "
  /\ isWhiteSpace 32 = true
  /\ lit "archived" <> []
  /\ forallb notCloseParen (lit "archived") = true
  /\ re_blank (lit " ") = true
  /\ @validateListItemDescription Sample.collaborators
       [mkText (lit " (archived) ")] [] = (Some true, []).
Proof.
  split; [discriminate|]. split; [reflexivity|]. split; [reflexivity|].
  split; [discriminate|]. split; [reflexivity|]. split; [reflexivity|].
  apply (@X7_parenthetical_description_is_accepted Sample.collaborators
           [mkText (lit " (archived) ")] 32%N (lit "archived") (lit " ") []);
    try reflexivity; discriminate.
Defined.

Lemma X8_blank_witness :
  [mkText (lit "  ")] <> []
  /\ re_blank (toStringAll [mkText (lit "  ")]) = true
  /\ @validateListItemDescription Sample.collaborators [mkText (lit "  ")] []
     = (Some true, []).
Proof.
  split; [discriminate|]. split; [reflexivity|].
  apply (@X8_blank_description_is_accepted Sample.collaborators
           [mkText (lit "  ")] []); [discriminate | reflexivity].
Defined.

Lemma X10_image_then_link_witness :
  children (Sample.entry [Sample.logo; Sample.fooLink])
  = [mkParagraph [Sample.logo; Sample.fooLink]]
  /\ hasType "paragraph" (mkParagraph [Sample.logo; Sample.fooLink]) = true
  /\ children (mkParagraph [Sample.logo; Sample.fooLink])
     = [] ++ [Sample.logo; Sample.fooLink]
  /\ forallb notLinkLike ([] ++ [Sample.logo]) = true
  /\ hasType "text" (hd Sample.logo []) = false
  /\ @validateListItemLink Sample.collaborators Sample.fooLink [] = (true, [])
  /\ @validateListItem Sample.collaborators
       (Sample.entry [Sample.logo; Sample.fooLink]) []
     = [] ++ [Message "Invalid list item link" (Some Sample.logo)].
Proof.
  repeat (split; [reflexivity|]).
  apply (@X10_a_link_in_last_place_is_not_found Sample.collaborators
           (Sample.entry [Sample.logo; Sample.fooLink])
           (mkParagraph [Sample.logo; Sample.fooLink])
           Sample.logo Sample.fooLink [] [] []); reflexivity.
Defined.

Lemma X11_valid_link_witness :
  children (Sample.entry [Sample.fooLink; Sample.shortToolText])
  = [mkParagraph [Sample.fooLink; Sample.shortToolText]]
  /\ hasType "paragraph"
       (mkParagraph [Sample.fooLink; Sample.shortToolText]) = true
  /\ children (mkParagraph [Sample.fooLink; Sample.shortToolText])
     = Sample.fooLink :: [Sample.shortToolText]
  /\ fst (@validateListItemLink Sample.collaborators Sample.fooLink []) = true
  /\ forallb linkChildAllowed (children Sample.fooLink) = true
  /\ (@validateListItem Sample.collaborators
        (Sample.entry [Sample.fooLink; Sample.shortToolText]) []
      = snd (@validateListItemDescription Sample.collaborators
               [Sample.shortToolText] [])
      /\ ([Sample.shortToolText] = [] ->
          @validateListItem Sample.collaborators
            (Sample.entry [Sample.fooLink; Sample.shortToolText]) [] = [])).
Proof.
  repeat (split; [reflexivity|]).
  apply (@X11_after_a_valid_link_the_description_decides
           Sample.collaborators
           (Sample.entry [Sample.fooLink; Sample.shortToolText])
           (mkParagraph [Sample.fooLink; Sample.shortToolText])
           Sample.fooLink [] [Sample.shortToolText] []); reflexivity.
Defined.

Lemma X13_full_stop_witness :
  lit "." <> []
  /\ forallb isPunctuation (lit ".") = true
  /\ lastIs isPunctuation (lit " - A short tool") = false
  /\ lastIs isClosingQuote (lit " - A short tool") = false
  /\ re_fully_backticked (lit " - A short tool" ++ lit ".") = false
  /\ @validateListItemSuffix Sample.collaborators
       (lit " - A short tool" ++ lit ".") [] = true.
Proof.
  split; [discriminate|]. repeat (split; [reflexivity|]).
  apply (@X13_terminal_punctuation_passes Sample.collaborators
           (lit " - A short tool") (lit ".") []);
    try reflexivity; discriminate.
Defined.

Lemma X14_backticked_span_witness :
  forallb notBacktick (lit "npm install") = true
  /\ noLineTerminator (lit "npm install") = true
  /\ forallb isPunctuation (lit ".") = true
  /\ @validateListItemSuffix Sample.collaborators
       (backtick :: lit "npm install" ++ backtick :: lit ".") [] = false.
Proof.
  repeat (split; [reflexivity|]).
  apply (@X14_one_backticked_span_fails Sample.collaborators
           (lit "npm install") (lit ".") []); reflexivity.
Defined.

Lemma X15_text_and_badge_witness :
  hasType "text" Sample.statusText = true
  /\ startsWith (lit " - ") (toString Sample.statusText) = true
  /\ forallb isBadge [Sample.betaBadge] = true
  /\ @validateListItemDescription Sample.collaborators
       [Sample.statusText; Sample.betaBadge] []
     = if @validateListItemSuffix Sample.collaborators
            (if nonEmptyList [Sample.betaBadge]
             then trimEnd (toString Sample.statusText)
             else toString Sample.statusText)
            (toString Sample.statusText)
       then (Some (fst (@validateListItemPrefixCasing Sample.collaborators
                          Sample.statusText [])),
             snd (@validateListItemPrefixCasing Sample.collaborators
                    Sample.statusText []))
       else (Some false,
             [] ++ [Message punctuationReason (Some Sample.statusText)]).
Proof.
  repeat (split; [reflexivity|]).
  apply (@X15_plain_text_with_badges_checks_punctuation_then_casing
           Sample.collaborators Sample.statusText [Sample.betaBadge] []);
    reflexivity.
Defined.

Lemma X16_reference_at_the_end_witness :
  hasType "text" Sample.mixedDash = true
  /\ startsWith (lit " - ") (toString Sample.mixedDash) = true
  /\ isBadge Sample.strongReference = false
  /\ forallb isBadge [Sample.betaBadge] = true
  /\ has listItemDescriptionSuffixNodeAllowList (type Sample.strongReference)
     = false
  /\ @validateListItemDescription Sample.collaborators
       (Sample.mixedDash :: [] ++ Sample.strongReference :: [Sample.betaBadge])
       []
     = (Some false,
        [] ++ [Message punctuationReason (Some Sample.strongReference)]).
Proof.
  repeat (split; [reflexivity|]).
  apply (@X16_last_node_of_another_type_is_reported Sample.collaborators
           Sample.mixedDash Sample.strongReference [] [Sample.betaBadge] []);
    reflexivity.
Defined.

Lemma X17_link_at_the_end_witness :
  hasType "text" Sample.mixedDash = true
  /\ startsWith (lit " - ") (toString Sample.mixedDash) = true
  /\ isBadge Sample.fooLink = false
  /\ forallb isBadge [Sample.betaBadge] = true
  /\ has listItemDescriptionSuffixNodeAllowList (type Sample.fooLink) = true
  /\ hasType "text" Sample.fooLink = false
  /\ @validateListItemDescription Sample.collaborators
       (Sample.mixedDash :: [Sample.logo] ++ Sample.fooLink :: [Sample.betaBadge])
       []
     = (Some true, []).
Proof.
  repeat (split; [reflexivity|]).
  apply (@X17_markup_at_the_end_needs_no_punctuation Sample.collaborators
           Sample.mixedDash Sample.fooLink [Sample.logo] [Sample.betaBadge] []);
    reflexivity.
Defined.

Lemma X19_plain_document_witness :
  (forall p n,
      In (p, n) (visitOrder Sample.plainDocument) ->
      isContentsHeading n = false)
  /\ @listItemRule Sample.collaborators Sample.plainDocument []
     = Some ([] ++ flat_map (fun list => @validateList Sample.collaborators list [])
                     (findAllLists Sample.plainDocument)).
Proof.
  assert (Hnone : forall p n,
             In (p, n) (visitOrder Sample.plainDocument) ->
             isContentsHeading n = false).
  { intros p n Hin. vm_compute in Hin.
    repeat (destruct Hin as [Hin|Hin];
            [injection Hin as <- <-; reflexivity|]).
    contradiction. }
  split; [exact Hnone|].
  apply (@X19_without_contents_every_list_is_validated Sample.collaborators
           Sample.plainDocument [] Hnone).
Defined.

Lemma X20_scoped_document_witness :
  children Sample.scopedDocument
  = [Sample.brokenList] ++ Sample.contentsHeading
      :: [Sample.brokenList] ++ Sample.toolsHeading :: [Sample.brokenList]
  /\ isContentsHeading Sample.scopedDocument = false
  /\ (forall c, In c [Sample.brokenList] -> find isContentsHeading c = None)
  /\ isContentsHeading Sample.contentsHeading = true
  /\ forallb (fun n => negb (hasType "heading" n)) [Sample.brokenList] = true
  /\ hasType "heading" Sample.toolsHeading = true
  /\ @listItemRule Sample.collaborators Sample.scopedDocument []
     = Some [Message "Invalid list item" None].
Proof.
  assert (Hbefore : forall c,
             In c [Sample.brokenList] -> find isContentsHeading c = None).
  { intros c [<-|[]]. reflexivity. }
  split; [reflexivity|]. split; [reflexivity|]. split; [exact Hbefore|].
  repeat (split; [reflexivity|]).
  exact (@X20_only_lists_after_the_heading_that_follows_contents
           Sample.collaborators Sample.scopedDocument Sample.contentsHeading
           Sample.toolsHeading [Sample.brokenList] [Sample.brokenList]
           [Sample.brokenList] [] eq_refl eq_refl Hbefore eq_refl eq_refl
           eq_refl).
Defined.

Lemma X22_commented_contents_witness :
  hasType "heading" Sample.commentedContents = true
  /\ depth Sample.commentedContents = Some 2%N
  /\ toString Sample.commentedContents
     = [] ++ lit "Contents" ++ lit " " ++ lit "<!--" ++ lit " omit in toc "
         ++ lit "-->" ++ []
  /\ re_blank [] = true
  /\ re_blank (lit " ") = true
  /\ noLineTerminator (lit " omit in toc ") = true
  /\ forallb notGreaterThan (lit " omit in toc ") = true
  /\ isContentsHeading Sample.commentedContents = true.
Proof.
  repeat (split; [reflexivity|]).
  apply (X22_contents_heading_may_carry_a_comment Sample.commentedContents
           [] (lit " ") (lit " omit in toc ") []); reflexivity.
Defined.

Lemma X12_punctuation_message_witness :
  In (Message punctuationReason (Some Sample.statusText))
    (snd (@validateListItemDescription Sample.collaborators
            [Sample.statusText] []))
  /\ (In (Message punctuationReason (Some Sample.statusText)) []
      \/ (In (reason (Message punctuationReason (Some Sample.statusText)))
            descriptionReasons
          /\ exists n,
               place (Message punctuationReason (Some Sample.statusText))
               = Some n
               /\ In n [Sample.statusText])).
Proof.
  assert (Hin :
    In (Message punctuationReason (Some Sample.statusText))
      (snd (@validateListItemDescription Sample.collaborators
              [Sample.statusText] [])))
    by (vm_compute; auto).
  split; [exact Hin|].
  exact (@X12_description_messages_point_into_the_description
           Sample.collaborators [Sample.statusText] [] _ Hin).
Defined.
